(** * gcloud_data_analysis_functions: readers for Google Sheets, Drive and Cloud Storage

    A shallow embedding of [gcloud_data_analysis_functions.py].  Each of the
    five Python functions becomes one Rocq function with the same name.  The
    third-party services (requests, gspread, PyDrive2, google.cloud.storage)
    and the third-party parsers (pandas, json, bson.json_util) are the fields
    of two interface records, so that every statement about the dispatch code
    holds for whatever those libraries do.  Python exceptions are a [result];
    the [io.StringIO] / [io.BytesIO] objects the functions create live in an
    explicit store with a read cursor. *)

From Stdlib Require Import ZArith NArith Ascii String Strings.Byte.
From stdpp Require Import base option list gmap strings.

Local Open Scope string_scope.
Set Warnings "-register-all".

(** ** Python values *)

Module Py.

(** [bytes] objects.  A [str] is a Rocq [string]; a [str] outside ASCII is
    held as the code units of its UTF-8 form. *)
Abbreviation bytes := (list byte).

#[export] Instance byte_eq_dec : EqDecision byte := Byte.byte_eq_dec.

Definition bytes_of_string (s : string) : bytes := list_byte_of_string s.
Definition string_of_bytes (b : bytes) : string := string_of_list_byte b.

(** The exceptions the embedded code can let escape. *)
Inductive exn : Type :=
  | IndexError           (* sequence index out of range *)
  | TypeError            (* bad call: unexpected or duplicated argument *)
  | AttributeError       (* attribute access on None *)
  | LookupError          (* unknown codec error handler *)
  | UnicodeDecodeError   (* malformed UTF-8 under the strict policy *)
  | ValueError           (* rejected argument value *)
  | JSONDecodeError      (* json: malformed document *)
  | ParserError          (* pandas: malformed or unreadable payload *)
  | ServiceError (what : string). (* a remote collaborator failed *)

Inductive result (A : Type) : Type :=
  | Return (a : A)
  | Raise (e : exn).
Arguments Return {A} a.
Arguments Raise {A} e.

#[export] Instance result_ret : MRet result := fun A a => Return a.
#[export] Instance result_bind : MBind result := fun A B f m =>
  match m with
  | Return a => f a
  | Raise e => Raise e
  end.
#[export] Instance result_fmap : FMap result := fun A B f m =>
  match m with
  | Return a => Return (f a)
  | Raise e => Raise e
  end.

(** One cell of a tabular frame. *)
Inductive cell : Type :=
  | NaN                      (* missing value *)
  | Int64 (z : Z)
  | Object (s : string).

(** [pandas.DataFrame]: column labels and the data rows, in order. *)
Record DataFrame : Type := mkDataFrame {
  columns : list string;
  rows : list (list cell)
}.

(** The Python objects the functions return or receive as keyword
    arguments.  A [dict] keeps its keys in insertion order. *)
Inductive pyval : Type :=
  | PNone
  | PBool (b : bool)
  | PInt (z : Z)
  | PFloat (lexeme : string)
  | PStr (s : string)
  | PList (l : list pyval)
  | PDict (items : list (string * pyval))
  | PFrame (df : DataFrame)
  | PObjectId (hex : string)       (* bson.objectid.ObjectId *)
  | PInt64 (z : Z).                (* bson.int64.Int64 *)

(** [**kwargs]: a dict from argument names to values. *)
Abbreviation kwargs := (gmap string pyval).

(** *** Sequence operations *)

(** [str.split(sep)] for a one-character separator. *)
Fixpoint split (sep : ascii) (s : string) : list string :=
  match s with
  | EmptyString => [EmptyString]
  | String c r =>
      if Ascii.eqb c sep then EmptyString :: split sep r
      else match split sep r with
           | x :: xs => String c x :: xs
           | [] => [String c EmptyString]
           end
  end.

(** [l[i]]: a negative index counts from the end; out of range raises. *)
Definition getitem {A} (l : list A) (i : Z) : result A :=
  let n := Z.of_nat (length l) in
  let j := if (i <? 0)%Z then (i + n)%Z else i in
  if ((0 <=? j) && (j <? n))%Z then
    match l !! Z.to_nat j with
    | Some x => Return x
    | None => Raise IndexError
    end
  else Raise IndexError.

(** [l[i:]]: the start is clamped into range; a slice never raises. *)
Definition slice_from {A} (l : list A) (i : Z) : list A :=
  let n := Z.of_nat (length l) in
  let j := if (i <? 0)%Z then Z.max 0 (i + n) else i in
  drop (Z.to_nat j) l.

(** *** [bytes.decode] with the UTF-8 codec *)

(** What one decoding step finds at the head of the input: a well-formed
    sequence of [n] bytes, or [n] bytes to hand to the error handler. *)
Inductive utf8_step : Type :=
  | Scalar (n : nat)
  | Invalid (n : nat).

Definition is_continuation (b : N) : bool := ((128 <=? b) && (b <=? 191))%N.

(** The byte ranges of well-formed UTF-8: no overlong form, no surrogate,
    nothing above U+10FFFF.  A sequence cut short by the end of the input
    is invalid up to that end. *)
Definition utf8_scan (s : list N) : utf8_step :=
  match s with
  | [] => Scalar 0
  | ch :: t =>
      if (ch <? 128)%N then Scalar 1
      else if (ch <? 194)%N then Invalid 1
      else if (ch <? 224)%N then
        match t with
        | [] => Invalid 1
        | ch2 :: _ => if is_continuation ch2 then Scalar 2 else Invalid 1
        end
      else if (ch <? 240)%N then
        match t with
        | [] => Invalid 1
        | ch2 :: t2 =>
            if negb (is_continuation ch2)
               || (if (ch2 <? 160)%N then (ch =? 224)%N else (ch =? 237)%N)
            then Invalid 1
            else match t2 with
                 | [] => Invalid 2
                 | ch3 :: _ => if is_continuation ch3 then Scalar 3 else Invalid 2
                 end
        end
      else if (ch <? 245)%N then
        match t with
        | [] => Invalid 1
        | ch2 :: t2 =>
            if negb (is_continuation ch2)
               || (if (ch2 <? 144)%N then (ch =? 240)%N else (ch =? 244)%N)
            then Invalid 1
            else match t2 with
                 | [] => Invalid 2
                 | ch3 :: t3 =>
                     if negb (is_continuation ch3) then Invalid 2
                     else match t3 with
                          | [] => Invalid 3
                          | ch4 :: _ =>
                              if is_continuation ch4 then Scalar 4 else Invalid 3
                          end
                 end
        end
      else Invalid 1
  end.

(** A codec error handler.  It is given the input from the malformed
    sequence on and the length of that sequence, and answers with the
    replacement text and the number of bytes to skip, or with an
    exception. *)
Definition error_handler : Type := bytes -> nat -> result (string * positive).

Definition strict_errors : error_handler :=
  fun _ _ => Raise UnicodeDecodeError.
Definition ignore_errors : error_handler :=
  fun _ n => Return ("", Pos.of_nat n).
(** U+FFFD, as UTF-8 code units. *)
Definition replace_errors : error_handler :=
  fun _ n => Return (string_of_bytes [xef; xbf; xbd]%byte, Pos.of_nat n).

Definition hex_char (d : N) : ascii :=
  ascii_of_N (if (d <? 10)%N then 48 + d else 87 + d)%N.

Fixpoint concat_strings (l : list string) : string :=
  match l with
  | [] => EmptyString
  | x :: r => x +:+ concat_strings r
  end.

(** Every malformed byte as a backslash, an x and two hexadecimal digits. *)
Definition backslashreplace_errors : error_handler :=
  fun b n =>
    let escape (c : byte) :=
      String "\" (String "x"
        (String (hex_char (Byte.to_N c / 16))
           (String (hex_char (Byte.to_N c mod 16)) EmptyString))) in
    Return (concat_strings (escape <$> take n b), Pos.of_nat n).

Fixpoint take_while {A} (f : A -> bool) (l : list A) : list A :=
  match l with
  | x :: r => if f x then x :: take_while f r else []
  | [] => []
  end.

(** Every malformed byte [c] as the lone surrogate U+DC00 + [c], held as
    three code units; an ASCII byte is not escaped. *)
Definition surrogateescape_errors : error_handler :=
  fun b n =>
    let escape (c : byte) :=
      String (ascii_of_N 237)
        (String (ascii_of_N (176 + Byte.to_N c / 64))
           (String (ascii_of_N (128 + Byte.to_N c mod 64)) EmptyString)) in
    let bad := take_while (fun c => bool_decide (128 <= Byte.to_N c)%N)
                 (take (Nat.min 4 n) b) in
    match bad with
    | [] => Raise UnicodeDecodeError
    | _ => Return (concat_strings (escape <$> bad), Pos.of_nat (length bad))
    end.

(** The three bytes of an encoded surrogate are let through as that
    surrogate; anything else is the decoding error. *)
Definition surrogatepass_errors : error_handler :=
  fun b _ =>
    match Byte.to_N <$> take 3 b with
    | [b0; b1; b2] =>
        let cp := (N.land b0 15 * 4096 + N.land b1 63 * 64 + N.land b2 63)%N in
        if ((N.land b0 240 =? 224) && (N.land b1 192 =? 128)
            && (N.land b2 192 =? 128) && (55296 <=? cp) && (cp <=? 57343))%N
        then Return (string_of_bytes (take 3 b), 3%positive)
        else Raise UnicodeDecodeError
    | _ => Raise UnicodeDecodeError
    end.

(** The handlers that only know how to encode. *)
Definition encode_only_errors : error_handler := fun _ _ => Raise TypeError.

(** The handlers every interpreter registers. *)
Definition builtin_error_handler (name : string) : option error_handler :=
  if name =? "strict" then Some strict_errors
  else if name =? "ignore" then Some ignore_errors
  else if name =? "replace" then Some replace_errors
  else if name =? "backslashreplace" then Some backslashreplace_errors
  else if name =? "surrogateescape" then Some surrogateescape_errors
  else if name =? "surrogatepass" then Some surrogatepass_errors
  else if name =? "xmlcharrefreplace" then Some encode_only_errors
  else if name =? "namereplace" then Some encode_only_errors
  else None.

(** Whether a string has a NUL character in it. *)
Fixpoint embedded_null (s : string) : bool :=
  match s with
  | EmptyString => false
  | String c r => Ascii.eqb c "000" || embedded_null r
  end.

Section Decode.
(** [codecs.lookup_error]: the registry of error handlers. *)
Variable lookup_error : string -> option error_handler.

(** The handler is looked up when the first malformed sequence is met; a
    handler that skips beyond the end of the input is refused. *)
Fixpoint utf8_decode_loop (fuel : nat) (errors : string) (b : bytes)
  : result string :=
  match fuel with
  | O => Return ""
  | S fuel' =>
      match b with
      | [] => Return ""
      | _ =>
          match utf8_scan (Byte.to_N <$> take 4 b) with
          | Scalar n =>
              rest ← utf8_decode_loop fuel' errors (drop n b);
              Return (string_of_bytes (take n b) +:+ rest)
          | Invalid n =>
              match lookup_error errors with
              | None => Raise LookupError
              | Some handler =>
                  '(r, skip) ← handler b n;
                  if (Pos.to_nat skip <=? length b)%nat then
                    rest ← utf8_decode_loop fuel' errors
                             (drop (Pos.to_nat skip) b);
                    Return (r +:+ rest)
                  else Raise IndexError
              end
          end
      end
  end.

(** Every step consumes at least one byte, so the length is fuel enough. *)
Definition utf8_decode (errors : string) (b : bytes) : result string :=
  utf8_decode_loop (length b) errors b.

(** [b.decode("utf-8", **kwargs)].  The signature is
    [decode(encoding='utf-8', errors='strict')]: with the encoding given
    by position, a keyword [encoding] is a duplicate, any keyword other
    than [errors] is unknown, [errors] must be a [str], and a [str] with a
    NUL character in it is refused with [ValueError]; all that is checked
    before the payload is looked at. *)
Definition decode (b : bytes) (kw : kwargs) : result string :=
  if bool_decide (dom kw ⊆ ({["errors"]} : gset string)) then
    match kw !! "errors" with
    | None => utf8_decode "strict" b
    | Some (PStr errors) =>
        if embedded_null errors then Raise ValueError
        else utf8_decode errors b
    | Some _ => Raise TypeError
    end
  else Raise TypeError.
End Decode.

(** ** File-like objects *)

(** What a stream holds: [io.StringIO] text or [io.BytesIO] bytes. *)
Inductive data : Type :=
  | Text (s : string)
  | Binary (b : bytes).

Definition data_length (d : data) : nat :=
  match d with
  | Text s => String.length s
  | Binary b => length b
  end.

Fixpoint string_drop (n : nat) (s : string) : string :=
  match n, s with
  | O, _ => s
  | S n', String _ r => string_drop n' r
  | S _, EmptyString => EmptyString
  end.

Definition data_drop (n : nat) (d : data) : data :=
  match d with
  | Text s => Text (string_drop n s)
  | Binary b => Binary (drop n b)
  end.

(** A stream object: its buffer and its read cursor. *)
Record stream : Type := mkStream {
  buffer : data;
  position : nat
}.

(** The stream objects allocated so far; a reference is an index. *)
Abbreviation ref := nat.
Abbreviation store := (list stream).

(** Computations that may raise and that allocate and read streams. *)
Definition M (A : Type) : Type := store -> result A * store.

#[export] Instance M_ret : MRet M := fun A a h => (Return a, h).
#[export] Instance M_bind : MBind M := fun A B f m h =>
  match m h with
  | (Return a, h') => f a h'
  | (Raise e, h') => (Raise e, h')
  end.
#[export] Instance M_fmap : FMap M := fun A B f m h =>
  match m h with
  | (Return a, h') => (Return (f a), h')
  | (Raise e, h') => (Raise e, h')
  end.

Definition lift {A} (r : result A) : M A := fun h => (r, h).

(** [io.StringIO(s)] and [io.BytesIO(b)]: a new stream at position 0. *)
Definition new_stream (d : data) : M ref :=
  fun h => (Return (length h), (h ++ [mkStream d 0])%list).
Definition StringIO (s : string) : M ref := new_stream (Text s).
Definition BytesIO (b : bytes) : M ref := new_stream (Binary b).

(** [io.read()]: everything from the cursor on; the cursor moves to the
    end, so a second [read] of the same object returns nothing. *)
Definition read (io : ref) : M data :=
  fun h =>
    match h !! io with
    | Some s =>
        (Return (data_drop (position s) (buffer s)),
         <[io := mkStream (buffer s) (Nat.max (position s) (data_length (buffer s)))]> h)
    | None => (Raise ValueError, h)
    end.

End Py.
Export Py.

(** ** The collaborators *)

(** An HTTP response of [requests]: the body, and the body as [requests]
    decodes it into text. *)
Record response : Type := mkResponse {
  content : bytes;
  text : string
}.

(** The remote services.  Every call may fail with whatever exception the
    client library raises; the handle types are the libraries' own. *)
Record World : Type := mkWorld {
  (* requests *)
  requests_get : string -> result response;
  (* gspread *)
  gspread_Client : Type;
  gspread_Spreadsheet : Type;
  gspread_Worksheet : Type;
  service_account : string -> result gspread_Client;
  open_by_key : gspread_Client -> string -> result gspread_Spreadsheet;
  get_worksheet : gspread_Spreadsheet -> Z -> result gspread_Worksheet;
  get_all_values : gspread_Worksheet -> result (list (list string));
  (* pydrive2; [GetContentIOBuffer] gives the bytes its buffer holds *)
  GoogleAuth : Type;
  GoogleDrive_object : Type;
  GoogleDriveFile : Type;
  GoogleDrive : GoogleAuth -> GoogleDrive_object;
  CreateFile : GoogleDrive_object -> string -> GoogleDriveFile;
  GetContentIOBuffer : GoogleDriveFile -> result bytes;
  (* google.oauth2.service_account and google.cloud.storage *)
  Credentials : Type;
  storage_Client : Type;
  Bucket : Type;
  Blob : Type;
  from_service_account_file : string -> result Credentials;
  Client : string -> Credentials -> result storage_Client;
  get_bucket : storage_Client -> string -> result Bucket;
  get_blob : Bucket -> string -> result (option Blob);
  download_as_string : Blob -> result bytes
}.

(** The parsers, as functions of what they read and of the keyword
    arguments forwarded to them. *)
Record Parsers : Type := mkParsers {
  read_csv : data -> kwargs -> result DataFrame;      (* pandas.read_csv *)
  read_excel : data -> kwargs -> result DataFrame;    (* pandas.read_excel *)
  read_parquet : data -> kwargs -> result DataFrame;  (* pandas.read_parquet *)
  json_load : data -> result pyval;                   (* json.load *)
  json_util_loads : bytes -> kwargs -> result pyval;  (* bson.json_util.loads *)
  lookup_error : string -> option error_handler       (* codecs.lookup_error *)
}.

(** Modelled from the spec: the constructor [pandas.DataFrame(data,
    columns=columns)], third-party code that is not part of the repository,
    for a list of rows of strings.  The "tabular frame" of the given rows
    under the given labels: short rows are padded with missing values up to
    the widest row, and the number of labels must be that width. *)
Definition pad_row (width : nat) (row : list string) : list cell :=
  ((Object <$> row) ++ replicate (width - length row) NaN)%list.

Definition pd_DataFrame (rows : list (list string)) (columns : list string)
  : result DataFrame :=
  match rows with
  | [] => Return (mkDataFrame columns [])
  | _ =>
      let width := foldr Nat.max 0 (length <$> rows) in
      if (width =? length columns)%nat
      then Return (mkDataFrame columns (pad_row width <$> rows))
      else Raise ValueError
  end.

(** ** The functions of [gcloud_data_analysis_functions.py] *)

Section Functions.
Context (W : World) (P : Parsers).

(** What a pandas reader is handed: a file-like object, or a value. *)
Inductive reader_input : Type :=
  | FileLike (io : ref)
  | Direct (d : data).

Definition input_data (i : reader_input) : M data :=
  match i with
  | FileLike io => read io
  | Direct d => mret d
  end.

Definition pd_read_csv (i : reader_input) (kw : kwargs) : M DataFrame :=
  d ← input_data i; lift (read_csv P d kw).
Definition pd_read_excel (i : reader_input) (kw : kwargs) : M DataFrame :=
  d ← input_data i; lift (read_excel P d kw).
Definition pd_read_parquet (i : reader_input) (kw : kwargs) : M DataFrame :=
  d ← input_data i; lift (read_parquet P d kw).
Definition json_dot_load (fp : ref) : M pyval :=
  d ← read fp; lift (json_load P d).

(** [d.decode("utf-8", **kwargs)]; only [bytes] have the method. *)
Definition bytes_decode (d : data) (kw : kwargs) : M string :=
  match d with
  | Binary b => lift (decode (lookup_error P) b kw)
  | Text _ => lift (Raise AttributeError)
  end.

Definition read_public_sheets (file_url : string) : M pyval :=
  response ← lift (requests_get W file_url);
  io ← BytesIO (content response);
  PFrame <$> pd_read_csv (FileLike io) ∅.

Definition read_public_file_from_gdrive
    (file_url file_format : string) (kw : kwargs) : M pyval :=
  file_id ← lift (getitem (split "/" file_url) (-2));
  let download_url :=
    "https://drive.google.com/uc?export=download&id=" +:+ file_id in
  response ← lift (requests_get W download_url);
  request_str_io ← StringIO (text response);
  if file_format =? "csv" then
    PFrame <$> pd_read_csv (FileLike request_str_io) kw
  else if file_format =? "xlsx" then
    PFrame <$> pd_read_excel (FileLike request_str_io) kw
  else if file_format =? "json" then
    json_dot_load request_str_io
  else mret PNone.

Definition read_private_sheets
    (credentials_json sheet_url : string) (worksheet : Z) : M pyval :=
  file_id ← lift (getitem (split "/" sheet_url) (-2));
  gcloud ← lift (service_account W credentials_json);
  sheet ← lift (open_by_key W gcloud file_id);
  worksheet ← lift (get_worksheet W sheet worksheet);
  list_rows_worksheet ← lift (get_all_values W worksheet);
  let data := slice_from list_rows_worksheet 1 in
  columns ← lift (getitem list_rows_worksheet 0);
  PFrame <$> lift (pd_DataFrame data columns).

Definition read_private_file_from_gdrive
    (file_url file_format : string) (google_auth : GoogleAuth W)
    (kw : kwargs) : M pyval :=
  let drive := GoogleDrive W google_auth in
  file_id ← lift (getitem (split "/" file_url) (-2));
  let file := CreateFile W drive file_id in
  content ← lift (GetContentIOBuffer W file);
  content_io_buffer ← BytesIO content;
  if file_format =? "csv" then
    b ← read content_io_buffer;
    s ← bytes_decode b ∅;
    io ← StringIO s;
    PFrame <$> pd_read_csv (FileLike io) kw
  else if file_format =? "xlsx" then
    b ← read content_io_buffer;
    PFrame <$> pd_read_excel (Direct b) kw
  else if file_format =? "parquet" then
    byte_stream ← read content_io_buffer;
    io ← match byte_stream with
         | Binary b => BytesIO b
         | Text _ => lift (Raise TypeError)
         end;
    PFrame <$> pd_read_parquet (FileLike io) kw
  else if file_format =? "json" then
    b ← read content_io_buffer;
    s ← bytes_decode b ∅;
    io ← StringIO s;
    json_dot_load io
  else if file_format =? "txt" then
    byte_stream ← read content_io_buffer;
    PStr <$> bytes_decode byte_stream kw
  else mret PNone.

Definition read_file_from_gcloud_storage
    (file_name file_format gcp_bucket gcp_project gcp_credentials_file : string)
    (kw : kwargs) : M pyval :=
  credentials ← lift (from_service_account_file W gcp_credentials_file);
  storage_client ← lift (Client W gcp_project credentials);
  bucket ← lift (get_bucket W storage_client gcp_bucket);
  blob ← lift (get_blob W bucket file_name);
  binary_stream ← lift (match blob with
                        | Some blob => download_as_string W blob
                        | None => Raise AttributeError
                        end);
  if file_format =? "csv" then
    io ← BytesIO binary_stream;
    PFrame <$> pd_read_csv (FileLike io) kw
  else if file_format =? "parquet" then
    io ← BytesIO binary_stream;
    PFrame <$> pd_read_parquet (FileLike io) kw
  else if file_format =? "json" then
    lift (json_util_loads P binary_stream kw)
  else if file_format =? "txt" then
    PStr <$> lift (decode (lookup_error P) binary_stream kw)
  else mret PNone.

End Functions.

(** ** Reference parsers *)

(** The parsers are third-party code.  For the statements that say what a
    decoded value looks like, this section gives each parser the behaviour
    the specification words for it, at the options it names.  A call with
    other options is left to an arbitrary [Parsers] instance. *)

Module Json.

(** The double quote. *)
Definition dquote : ascii := "034"%char.

Definition quoted (s : string) : string :=
  String dquote (s +:+ String dquote EmptyString).

Definition is_ws (c : ascii) : bool :=
  Ascii.eqb c " " || Ascii.eqb c "009" || Ascii.eqb c "010" || Ascii.eqb c "013".

Fixpoint skip_ws (s : string) : string :=
  match s with
  | String c r => if is_ws c then skip_ws r else s
  | EmptyString => EmptyString
  end.

Definition is_digit (c : ascii) : bool :=
  let n := nat_of_ascii c in (48 <=? n)%nat && (n <=? 57)%nat.

(** The longest prefix of digits, and what follows it. *)
Fixpoint span_digits (s : string) : string * string :=
  match s with
  | String c r =>
      if is_digit c
      then let '(d, rest) := span_digits r in (String c d, rest)
      else (EmptyString, s)
  | EmptyString => (EmptyString, EmptyString)
  end.

Definition Z_of_digits (s : string) : Z :=
  foldl (fun acc c => (10 * acc + (Z.of_nat (nat_of_ascii c) - 48))%Z)
        0%Z (list_ascii_of_string s).

(** An optionally signed decimal integer, and nothing else. *)
Definition parse_int (s : string) : option Z :=
  let '(neg, body) :=
    match s with
    | String "-" r => (true, r)
    | String "+" r => (false, r)
    | _ => (false, s)
    end in
  match span_digits body with
  | (String c d, EmptyString) =>
      let z := Z_of_digits (String c d) in
      Some (if neg : bool then (- z)%Z else z)
  | _ => None
  end.

(** A JSON number: an optional minus sign, an integer part without a
    leading zero, an optional fraction, an optional exponent.  It is an
    [int] when there is neither fraction nor exponent, otherwise a
    [float], kept as its lexeme. *)
Definition scan_number (s : string) : option (pyval * string) :=
  let '(sign, s1) :=
    match s with
    | String "-" r => ("-", r)
    | _ => ("", s)
    end in
  let integer :=
    match s1 with
    | String "0" r => Some ("0", r)
    | String c r =>
        if is_digit c then Some (span_digits s1) else None
    | EmptyString => None
    end in
  match integer with
  | None => None
  | Some (int_part, s2) =>
      let '(frac, s3) :=
        match s2 with
        | String "." r =>
            match span_digits r with
            | (EmptyString, _) => ("", s2)
            | (d, rest) => ("." +:+ d, rest)
            end
        | _ => ("", s2)
        end in
      let exponent (e : string) (r : string) :=
        let '(esign, r1) :=
          match r with
          | String "-" r' => ("-", r')
          | String "+" r' => ("+", r')
          | _ => ("", r)
          end in
        match span_digits r1 with
        | (EmptyString, _) => ("", s3)
        | (d, rest) => (e +:+ esign +:+ d, rest)
        end in
      let '(exp, s4) :=
        match s3 with
        | String "e" r => exponent "e" r
        | String "E" r => exponent "E" r
        | _ => ("", s3)
        end in
      match frac, exp with
      | EmptyString, EmptyString =>
          let z := Z_of_digits int_part in
          Some (PInt (if sign =? "-" then (- z)%Z else z), s4)
      | _, _ => Some (PFloat (sign +:+ int_part +:+ frac +:+ exp), s4)
      end
  end.

Definition hex_digit (c : ascii) : option N :=
  let n := N_of_ascii c in
  if ((48 <=? n) && (n <=? 57))%N then Some (n - 48)%N
  else if ((97 <=? n) && (n <=? 102))%N then Some (n - 87)%N
  else if ((65 <=? n) && (n <=? 70))%N then Some (n - 55)%N
  else None.

(** Four hexadecimal digits. *)
Definition hex4 (s : string) : option (N * string) :=
  match s with
  | String a (String b (String c (String d r))) =>
      x ← hex_digit a; y ← hex_digit b; z ← hex_digit c; w ← hex_digit d;
      Some (((x * 16 + y) * 16 + z) * 16 + w, r)%N
  | _ => None
  end.

(** The UTF-8 code units of a code point. *)
Definition utf8_units (cp : N) : string :=
  let unit (n : N) := ascii_of_N n in
  (if cp <? 128 then String (unit cp) ""
   else if cp <? 2048 then
     String (unit (192 + cp / 64)) (String (unit (128 + cp mod 64)) "")
   else if cp <? 65536 then
     String (unit (224 + cp / 4096))
       (String (unit (128 + (cp / 64) mod 64))
          (String (unit (128 + cp mod 64)) ""))
   else
     String (unit (240 + cp / 262144))
       (String (unit (128 + (cp / 4096) mod 64))
          (String (unit (128 + (cp / 64) mod 64))
             (String (unit (128 + cp mod 64)) ""))))%N.

Definition simple_escape (c : ascii) : option ascii :=
  if Ascii.eqb c dquote then Some dquote
  else if Ascii.eqb c "\" then Some "\"%char
  else if Ascii.eqb c "/" then Some "/"%char
  else if Ascii.eqb c "b" then Some "008"%char
  else if Ascii.eqb c "f" then Some "012"%char
  else if Ascii.eqb c "n" then Some "010"%char
  else if Ascii.eqb c "r" then Some "013"%char
  else if Ascii.eqb c "t" then Some "009"%char
  else None.

(** The body of a string literal, from after the opening quote up to the
    closing one.  A [\u] escape for a high surrogate joins the low
    surrogate escape that follows it. *)
Fixpoint scan_string (fuel : nat) (s : string) : option (string * string) :=
  match fuel with
  | O => None
  | S fuel' =>
      match s with
      | EmptyString => None
      | String c r =>
          if Ascii.eqb c dquote then Some ("", r)
          else if Ascii.eqb c "\" then
            match r with
            | EmptyString => None
            | String e r1 =>
                match simple_escape e with
                | Some x =>
                    '(t, rest) ← scan_string fuel' r1;
                    Some (String x t, rest)
                | None =>
                    if Ascii.eqb e "u" then
                      '(hi, r2) ← hex4 r1;
                      let joined :=
                        if ((55296 <=? hi) && (hi <? 56320))%N then
                          match r2 with
                          | String "\" (String "u" r3) =>
                              match hex4 r3 with
                              | Some (lo, r4) =>
                                  if ((56320 <=? lo) && (lo <? 57344))%N
                                  then Some ((65536 + (hi - 55296) * 1024
                                              + (lo - 56320))%N, r4)
                                  else None
                              | None => None
                              end
                          | _ => None
                          end
                        else None in
                      let '(cp, r5) := default (hi, r2) joined in
                      '(t, rest) ← scan_string fuel' r5;
                      Some (utf8_units cp +:+ t, rest)
                    else None
                end
            end
          else if (nat_of_ascii c <? 32)%nat then None
          else
            '(t, rest) ← scan_string fuel' r;
            Some (String c t, rest)
      end
  end.

(** [s] without [prefix], when it starts with it. *)
Fixpoint strip_prefix (prefix s : string) : option string :=
  match prefix, s with
  | EmptyString, _ => Some s
  | String a p, String b r => if Ascii.eqb a b then strip_prefix p r else None
  | String _ _, EmptyString => None
  end.

(** [dict(pairs)]: a repeated key keeps its first place and takes the
    last value. *)
Fixpoint dict_set (k : string) (v : pyval) (d : list (string * pyval))
  : list (string * pyval) :=
  match d with
  | [] => [(k, v)]
  | (k', v') :: r =>
      if k =? k' then (k, v) :: r else (k', v') :: dict_set k v r
  end.

Definition dict_of_pairs (pairs : list (string * pyval))
  : list (string * pyval) :=
  foldl (fun d kv => dict_set kv.1 kv.2 d) [] pairs.

Definition dict_get (k : string) (d : list (string * pyval)) : option pyval :=
  snd <$> find (fun kv => k =? kv.1) d.

Section Parser.
(** What is made of a finished JSON object. *)
Variable object_pairs_hook : list (string * pyval) -> result pyval.

Definition scan_literal (s : string) : result (pyval * string) :=
  match strip_prefix "null" s with
  | Some r => Return (PNone, r)
  | None =>
  match strip_prefix "true" s with
  | Some r => Return (PBool true, r)
  | None =>
  match strip_prefix "false" s with
  | Some r => Return (PBool false, r)
  | None =>
  match strip_prefix "NaN" s with
  | Some r => Return (PFloat "nan", r)
  | None =>
  match strip_prefix "Infinity" s with
  | Some r => Return (PFloat "inf", r)
  | None =>
  match strip_prefix "-Infinity" s with
  | Some r => Return (PFloat "-inf", r)
  | None =>
  match scan_number s with
  | Some vr => Return vr
  | None => Raise JSONDecodeError
  end end end end end end end.

Fixpoint parse_value (fuel : nat) (s : string) : result (pyval * string) :=
  match fuel with
  | O => Raise JSONDecodeError
  | S fuel' =>
      match s with
      | String "{" r =>
          match skip_ws r with
          | String "}" r' => v ← object_pairs_hook []; Return (v, r')
          | r1 => parse_members fuel' r1 []
          end
      | String "[" r =>
          match skip_ws r with
          | String "]" r' => Return (PList [], r')
          | r1 => parse_elements fuel' r1 []
          end
      | String "034" r =>
          match scan_string (S (String.length r)) r with
          | Some (str, r') => Return (PStr str, r')
          | None => Raise JSONDecodeError
          end
      | _ => scan_literal s
      end
  end
with parse_members (fuel : nat) (s : string) (acc : list (string * pyval))
  : result (pyval * string) :=
  match fuel with
  | O => Raise JSONDecodeError
  | S fuel' =>
      match s with
      | String "034" r =>
          match scan_string (S (String.length r)) r with
          | None => Raise JSONDecodeError
          | Some (key, r1) =>
              match skip_ws r1 with
              | String ":" r2 =>
                  '(v, r3) ← parse_value fuel' (skip_ws r2);
                  let acc' := (acc ++ [(key, v)])%list in
                  match skip_ws r3 with
                  | String "," r4 => parse_members fuel' (skip_ws r4) acc'
                  | String "}" r4 =>
                      d ← object_pairs_hook acc'; Return (d, r4)
                  | _ => Raise JSONDecodeError
                  end
              | _ => Raise JSONDecodeError
              end
          end
      | _ => Raise JSONDecodeError
      end
  end
with parse_elements (fuel : nat) (s : string) (acc : list pyval)
  : result (pyval * string) :=
  match fuel with
  | O => Raise JSONDecodeError
  | S fuel' =>
      '(v, r1) ← parse_value fuel' s;
      let acc' := (acc ++ [v])%list in
      match skip_ws r1 with
      | String "," r2 => parse_elements fuel' (skip_ws r2) acc'
      | String "]" r2 => Return (PList acc', r2)
      | _ => Raise JSONDecodeError
      end
  end.

(** One document, with nothing but white space around it.  Each call
    of the parser consumes a character, so the length is fuel enough. *)
Definition loads (s : string) : result pyval :=
  '(v, rest) ← parse_value (S (String.length s)) (skip_ws s);
  match skip_ws rest with
  | EmptyString => Return v
  | _ => Raise JSONDecodeError
  end.
End Parser.

End Json.

Module Reference.

(** Modelled from the spec: [json.load] of the standard library, which
    is not part of the repository.  "A key-ordered mapping (or nested
    structure) parsed from JSON text". *)
Definition plain_object (pairs : list (string * pyval)) : result pyval :=
  Return (PDict (Json.dict_of_pairs pairs)).

Definition text_of (d : data) : result string :=
  match d with
  | Text s => Return s
  | Binary b => utf8_decode builtin_error_handler "strict" b
  end.

Definition spec_json_load (d : data) : result pyval :=
  s ← text_of d; Json.loads plain_object s.

(** Modelled from the spec: [bson.json_util.loads], which is not part of
    the repository.  "Extended JSON type decoding (e.g., database-specific
    extended types)": an object whose only key is [$oid] or [$numberLong]
    stands for a value of the database's own type; every other object is
    the plain mapping. *)
Definition is_hex24 (s : string) : bool :=
  (String.length s =? 24)%nat
  && forallb (fun c => bool_decide (is_Some (Json.hex_digit c)))
             (list_ascii_of_string s).

Definition extended_object (pairs : list (string * pyval)) : result pyval :=
  let d := Json.dict_of_pairs pairs in
  match Json.dict_get "$oid" d, Json.dict_get "$numberLong" d with
  | Some v, _ =>
      match d, v with
      | [_], PStr hex =>
          if is_hex24 hex then Return (PObjectId hex) else Raise ValueError
      | _, _ => Raise TypeError
      end
  | None, Some v =>
      match d, v with
      | [_], PStr digits =>
          match Json.parse_int digits with
          | Some z => Return (PInt64 z)
          | None => Raise ValueError
          end
      | _, _ => Raise TypeError
      end
  | None, None => Return (PDict d)
  end.

Definition spec_json_util_loads (b : bytes) : result pyval :=
  s ← text_of (Binary b); Json.loads extended_object s.

(** Modelled from the spec: [pandas.read_csv], which is not part of the
    repository, at its default options.  "Tabular frame parsed from
    comma-separated text, first row as column headers"; a row that is too
    short is filled with the null marker and a row that is too long is a
    parser error.  A column whose every entry is an integer literal holds
    integers; any other column holds the text of its entries. *)
Definition strip_cr (s : string) : string :=
  match rev (list_ascii_of_string s) with
  | c :: r =>
      if Ascii.eqb c "013" then string_of_list_ascii (rev r) else s
  | [] => s
  end.

Definition csv_lines (s : string) : list string :=
  filter (fun l => l ≠ EmptyString) (strip_cr <$> split "010" s).

Definition int_column (table : list (list string)) (j : nat) : bool :=
  forallb (fun r => match r !! j with
                    | Some s => bool_decide (is_Some (Json.parse_int s))
                    | None => false
                    end) table.

Definition csv_cell (table : list (list string)) (j : nat)
    (entry : option string) : cell :=
  match entry with
  | None => NaN
  | Some s =>
      if int_column table j then
        match Json.parse_int s with
        | Some z => Int64 z
        | None => NaN
        end
      else if s =? "" then NaN
      else Object s
  end.

Definition csv_row (table : list (list string)) (width : nat)
    (r : list string) : list cell :=
  (fun j => csv_cell table j (r !! j)) <$> seq 0 width.

Definition spec_read_csv (d : data) : result DataFrame :=
  s ← text_of d;
  match csv_lines s with
  | [] => Raise ParserError
  | header :: body =>
      let names := split "," header in
      let table := split "," <$> body in
      if forallb (fun r => (length r <=? length names)%nat) table
      then Return (mkDataFrame names (csv_row table (length names) <$> table))
      else Raise ParserError
  end.

(** A spreadsheet file, opened: its sheets in order, by name. *)
Definition workbook : Type := list (string * DataFrame).

Section Excel.
(** The reader of the spreadsheet container format. *)
Variable open_workbook : bytes -> option workbook.

(** Modelled from the spec: [pandas.read_excel], which is not part of
    the repository.  "Tabular frame parsed from spreadsheet binary,
    first sheet unless overridden by options": the input has to be the
    binary content, and the option [sheet_name] selects a sheet by
    position or by name. *)
Definition spec_read_excel (d : data) (sheet_name : option pyval)
  : result DataFrame :=
  match d with
  | Text _ => Raise ParserError
  | Binary b =>
      match open_workbook b with
      | None => Raise ParserError
      | Some wb =>
          let sheet :=
            match sheet_name with
            | None => snd <$> wb !! 0%nat
            | Some (PInt i) =>
                if (0 <=? i)%Z then snd <$> wb !! Z.to_nat i else None
            | Some (PStr name) => snd <$> find (fun s => name =? s.1) wb
            | Some _ => None
            end in
          match sheet with
          | Some df => Return df
          | None => Raise ValueError
          end
      end
  end.

(** The reference parsers.  [Q] answers the calls whose options the
    specification says nothing about. *)
Definition spec_parsers (Q : Parsers) : Parsers := {|
  read_csv d kw :=
    if bool_decide (dom kw ⊆ (∅ : gset string)) then spec_read_csv d
    else read_csv Q d kw;
  read_excel d kw :=
    if bool_decide (dom kw ⊆ ({["sheet_name"]} : gset string))
    then spec_read_excel d (kw !! "sheet_name")
    else read_excel Q d kw;
  read_parquet := read_parquet Q;
  json_load := spec_json_load;
  json_util_loads b kw :=
    if bool_decide (dom kw ⊆ (∅ : gset string)) then spec_json_util_loads b
    else json_util_loads Q b kw;
  lookup_error := builtin_error_handler
|}.
End Excel.

End Reference.

(** ** A sample deployment *)

(** A small remote world with a handful of files, used to run the
    functions on concrete inputs. *)
Module Sample.
Import Reference.

Definition nl : string := String "010" EmptyString.

Definition csv_text : string := "a,b" +:+ nl +:+ "1,2" +:+ nl +:+ "3,4".
(** [{"x": 1, "y": [2,3]}] *)
Definition json_text : string :=
  "{" +:+ Json.quoted "x" +:+ ": 1, " +:+ Json.quoted "y" +:+ ": [2,3]}".
(** [{"n": {"$numberLong": "5"}}] *)
Definition extended_json_text : string :=
  "{" +:+ Json.quoted "n" +:+ ": {" +:+ Json.quoted "$numberLong" +:+ ": "
  +:+ Json.quoted "5" +:+ "}}".
Definition xlsx_bytes : bytes := [x50; x4b; x03; x04; x00]%byte.

Definition first_sheet : DataFrame :=
  mkDataFrame ["k"; "v"] [[Object "p"; Int64 1]].
Definition second_sheet : DataFrame :=
  mkDataFrame ["k"] [[Object "q"]].

Definition open_workbook (b : bytes) : option workbook :=
  if bool_decide (b = xlsx_bytes)
  then Some [("Sheet1", first_sheet); ("Sheet2", second_sheet)]
  else None.

(** The stored files, by identifier. *)
Definition files : list (string * bytes) :=
  [ ("CSV1", bytes_of_string csv_text);
    ("JSON1", bytes_of_string json_text);
    ("JSON2", bytes_of_string extended_json_text);
    ("TXT1", bytes_of_string "hello");
    ("XLSX1", xlsx_bytes) ].

Definition file (id : string) : result bytes :=
  match find (fun f => id =? f.1) files with
  | Some f => Return f.2
  | None => Raise (ServiceError "not found")
  end.

(** The spreadsheets, by key: the cell values of their worksheets. *)
Definition spreadsheets : list (string * list (list (list string))) :=
  [ ("ABC123", [[["name"; "age"]; ["ann"; "31"]; ["bob"; "27"]]]);
    ("EMPTY", [[]]) ].

Definition world : World := {|
  requests_get url :=
    match Json.strip_prefix "https://drive.google.com/uc?export=download&id=" url with
    | Some id => b ← file id; Return (mkResponse b (string_of_bytes b))
    | None => Raise (ServiceError "unreachable")
    end;
  gspread_Client := unit;
  gspread_Spreadsheet := list (list (list string));
  gspread_Worksheet := list (list string);
  service_account _ := Return ();
  open_by_key _ key :=
    match find (fun s => key =? s.1) spreadsheets with
    | Some s => Return s.2
    | None => Raise (ServiceError "not found")
    end;
  get_worksheet sheets i :=
    match sheets !! Z.to_nat i with
    | Some w => Return w
    | None => Raise (ServiceError "no such worksheet")
    end;
  get_all_values w := Return w;
  GoogleAuth := unit;
  GoogleDrive_object := unit;
  GoogleDriveFile := string;
  GoogleDrive _ := ();
  CreateFile _ id := id;
  GetContentIOBuffer id := file id;
  Credentials := unit;
  storage_Client := unit;
  Bucket := unit;
  Blob := bytes;
  from_service_account_file _ := Return ();
  Client _ _ := Return ();
  get_bucket _ _ := Return ();
  get_blob _ name :=
    match file name with
    | Return b => Return (Some b)
    | Raise _ => Return None
    end;
  download_as_string b := Return b
|}.

(** Parsers that refuse every call. *)
Definition no_parsers : Parsers := {|
  read_csv _ _ := Raise ParserError;
  read_excel _ _ := Raise ParserError;
  read_parquet _ _ := Raise ParserError;
  json_load _ := Raise JSONDecodeError;
  json_util_loads _ _ := Raise JSONDecodeError;
  lookup_error _ := None
|}.

Definition parsers : Parsers := spec_parsers open_workbook no_parsers.

Definition sheet_url : string :=
  "https://docs.google.com/spreadsheets/d/ABC123/edit#gid=0".
Definition drive_url (id : string) : string :=
  "https://drive.google.com/file/d/" +:+ id +:+ "/view".
End Sample.

(** Variations of a world. *)

(** The world [W] with its web replaced by [get]. *)
Definition with_requests_get (W : World) (get : string -> result response)
  : World := {|
  requests_get := get;
  gspread_Client := gspread_Client W;
  gspread_Spreadsheet := gspread_Spreadsheet W;
  gspread_Worksheet := gspread_Worksheet W;
  service_account := service_account W;
  open_by_key := open_by_key W;
  get_worksheet := get_worksheet W;
  get_all_values := get_all_values W;
  GoogleAuth := GoogleAuth W;
  GoogleDrive_object := GoogleDrive_object W;
  GoogleDriveFile := GoogleDriveFile W;
  GoogleDrive := GoogleDrive W;
  CreateFile := CreateFile W;
  GetContentIOBuffer := GetContentIOBuffer W;
  Credentials := Credentials W;
  storage_Client := storage_Client W;
  Bucket := Bucket W;
  Blob := Blob W;
  from_service_account_file := from_service_account_file W;
  Client := Client W;
  get_bucket := get_bucket W;
  get_blob := get_blob W;
  download_as_string := download_as_string W
|}.

(** The world [W] where every Drive file holds the bytes [b]. *)
Definition with_drive_content (W : World) (b : bytes) : World := {|
  requests_get := requests_get W;
  gspread_Client := gspread_Client W;
  gspread_Spreadsheet := gspread_Spreadsheet W;
  gspread_Worksheet := gspread_Worksheet W;
  service_account := service_account W;
  open_by_key := open_by_key W;
  get_worksheet := get_worksheet W;
  get_all_values := get_all_values W;
  GoogleAuth := GoogleAuth W;
  GoogleDrive_object := GoogleDrive_object W;
  GoogleDriveFile := GoogleDriveFile W;
  GoogleDrive := GoogleDrive W;
  CreateFile := CreateFile W;
  GetContentIOBuffer _ := Return b;
  Credentials := Credentials W;
  storage_Client := storage_Client W;
  Bucket := Bucket W;
  Blob := Blob W;
  from_service_account_file := from_service_account_file W;
  Client := Client W;
  get_bucket := get_bucket W;
  get_blob := get_blob W;
  download_as_string := download_as_string W
|}.

(** ** Properties *)

Local Open Scope list_scope.

(** *** Running computations *)

Lemma bind_lift {A B} (r : result A) (k : A -> M B) (h : store) :
  (lift r ≫= k) h =
  match r with
  | Return a => k a h
  | Raise e => (Raise e, h)
  end.
Proof. destruct r; reflexivity. Qed.

Lemma bind_new_stream {B} (d : data) (k : ref -> M B) (h : store) :
  (new_stream d ≫= k) h = k (length h) (h ++ [mkStream d 0]).
Proof. reflexivity. Qed.

(** Reading the stream allocated last returns its whole buffer and leaves
    the cursor at the end. *)
Lemma read_last (d : data) (h : store) :
  read (length h) (h ++ [mkStream d 0])
  = (Return d, h ++ [mkStream d (data_length d)]).
Proof.
  unfold read. rewrite list_lookup_middle by reflexivity. simpl.
  f_equal.
  - f_equal. destruct d; reflexivity.
  - replace (length h) with (length h + 0)%nat at 1 by lia.
    rewrite insert_app_r. reflexivity.
Qed.

Lemma bind_read_last {B} (d : data) (k : data -> M B) (h : store) :
  (read (length h) ≫= k) (h ++ [mkStream d 0])
  = k d (h ++ [mkStream d (data_length d)]).
Proof. unfold mbind, M_bind. rewrite read_last. reflexivity. Qed.

(** A second [read] of the same stream finds nothing left. *)
Lemma read_twice (b : bytes) (h : store) :
  fst ((io ← BytesIO b; first ← read io; second ← read io;
        mret (first, second)) h)
  = Return (Binary b, Binary []).
Proof.
  unfold BytesIO. rewrite bind_new_stream, bind_read_last.
  unfold mbind, M_bind, read.
  rewrite list_lookup_middle by reflexivity. simpl.
  rewrite drop_all. reflexivity.
Qed.

(** One step of a computation: a lifted result, an allocation, or the
    read of the stream allocated last. *)
Ltac run_lift :=
  match goal with
  | |- context [(lift ?r ≫= ?k) ?h] => rewrite (bind_lift r k h)
  end.

Ltac run_stream :=
  unfold StringIO, BytesIO;
  match goal with
  | |- context [(new_stream ?d ≫= ?k) ?h] => rewrite (bind_new_stream d k h)
  | |- context [(read (length ?h) ≫= ?k) (?h ++ [mkStream ?d 0])] =>
      rewrite (bind_read_last d k h)
  end.

(** Follow a retrieval call: if it raises, both sides raise the same. *)
Ltac run_call :=
  run_lift;
  match goal with
  | |- context [match ?r with Return _ => _ | Raise _ => _ end] =>
      let x := fresh "x" in
      let e := fresh "e" in
      destruct r as [x|e]; [|reflexivity]; simpl
  end.

Lemma eqb_not_elem_of (fmt x : string) (l : list string) :
  fmt ∉ l -> x ∈ l -> (fmt =? x) = false.
Proof.
  intros Hnot Hin. apply String.eqb_neq. intros ->. contradiction.
Qed.

(** *** The parsers on a fresh stream *)

Section FreshStream.
Context (P : Parsers).

Lemma fmap_M {A B} (f : A -> B) (m : M A) (h : store) :
  (f <$> m) h = ((f <$> fst (m h)), snd (m h)).
Proof.
  unfold fmap at 1, M_fmap. destruct (m h) as [[a|e] h']; reflexivity.
Qed.

Lemma pd_read_csv_last (d : data) (kw : kwargs) (h : store) :
  pd_read_csv P (FileLike (length h)) kw (h ++ [mkStream d 0])
  = (read_csv P d kw, h ++ [mkStream d (data_length d)]).
Proof. unfold pd_read_csv, input_data. run_stream. reflexivity. Qed.

Lemma pd_read_excel_last (d : data) (kw : kwargs) (h : store) :
  pd_read_excel P (FileLike (length h)) kw (h ++ [mkStream d 0])
  = (read_excel P d kw, h ++ [mkStream d (data_length d)]).
Proof. unfold pd_read_excel, input_data. run_stream. reflexivity. Qed.

Lemma pd_read_parquet_last (d : data) (kw : kwargs) (h : store) :
  pd_read_parquet P (FileLike (length h)) kw (h ++ [mkStream d 0])
  = (read_parquet P d kw, h ++ [mkStream d (data_length d)]).
Proof. unfold pd_read_parquet, input_data. run_stream. reflexivity. Qed.

Lemma json_dot_load_last (d : data) (h : store) :
  json_dot_load P (length h) (h ++ [mkStream d 0])
  = (json_load P d, h ++ [mkStream d (data_length d)]).
Proof. unfold json_dot_load. run_stream. reflexivity. Qed.

Lemma pd_read_excel_direct (d : data) (kw : kwargs) (h : store) :
  pd_read_excel P (Direct d) kw h = (read_excel P d kw, h).
Proof. reflexivity. Qed.
End FreshStream.

(** *** The three dispatching readers *)

Section Dispatch.
Context (W : World) (P : Parsers).

(** A call of one of the functions that branch on [file_format], with
    the arguments that locate the remote file. *)
Inductive reader : Type :=
  | PublicGdrive (file_url : string)
  | PrivateGdrive (file_url : string) (google_auth : GoogleAuth W)
  | GcloudStorage (file_name gcp_bucket gcp_project gcp_credentials_file : string).

Definition call (r : reader) (file_format : string) (kw : kwargs) : M pyval :=
  match r with
  | PublicGdrive file_url =>
      read_public_file_from_gdrive W P file_url file_format kw
  | PrivateGdrive file_url google_auth =>
      read_private_file_from_gdrive W P file_url file_format google_auth kw
  | GcloudStorage file_name gcp_bucket gcp_project gcp_credentials_file =>
      read_file_from_gcloud_storage W P file_name file_format gcp_bucket
        gcp_project gcp_credentials_file kw
  end.

(** The format tags for which the function has a branch. *)
Definition supported (r : reader) : list string :=
  match r with
  | PublicGdrive _ => ["csv"; "xlsx"; "json"]
  | PrivateGdrive _ _ => ["csv"; "xlsx"; "parquet"; "json"; "txt"]
  | GcloudStorage _ _ _ _ => ["csv"; "parquet"; "json"; "txt"]
  end.

(** The retrieval part of each function: everything before the branch
    on [file_format], ending with the raw payload. *)
Definition retrieve (r : reader) : result data :=
  match r with
  | PublicGdrive file_url =>
      file_id ← getitem (split "/" file_url) (-2);
      response ← requests_get W
        ("https://drive.google.com/uc?export=download&id=" +:+ file_id);
      Return (Text (text response))
  | PrivateGdrive file_url google_auth =>
      file_id ← getitem (split "/" file_url) (-2);
      content ← GetContentIOBuffer W
        (CreateFile W (GoogleDrive W google_auth) file_id);
      Return (Binary content)
  | GcloudStorage file_name gcp_bucket gcp_project gcp_credentials_file =>
      credentials ← from_service_account_file W gcp_credentials_file;
      storage_client ← Client W gcp_project credentials;
      bucket ← get_bucket W storage_client gcp_bucket;
      blob ← get_blob W bucket file_name;
      binary_stream ← match blob with
                      | Some blob => download_as_string W blob
                      | None => Raise AttributeError
                      end;
      Return (Binary binary_stream)
  end.

(** The decode step as a table: from the raw payload, the format tag
    and the forwarded options to the decoded result.  This is the
    specification's Format Decoder, one table per caller. *)
Definition decode_step (r : reader) (payload : data) (file_format : string)
    (kw : kwargs) : result pyval :=
  match r with
  | PublicGdrive _ =>
      if file_format =? "csv" then PFrame <$> read_csv P payload kw
      else if file_format =? "xlsx" then PFrame <$> read_excel P payload kw
      else if file_format =? "json" then json_load P payload
      else Return PNone
  | PrivateGdrive _ _ =>
      let decoded (kw : kwargs) : result string :=
        match payload with
        | Binary b => decode (lookup_error P) b kw
        | Text _ => Raise AttributeError
        end in
      if file_format =? "csv" then
        s ← decoded ∅; PFrame <$> read_csv P (Text s) kw
      else if file_format =? "xlsx" then PFrame <$> read_excel P payload kw
      else if file_format =? "parquet" then
        match payload with
        | Binary _ => PFrame <$> read_parquet P payload kw
        | Text _ => Raise TypeError
        end
      else if file_format =? "json" then
        s ← decoded ∅; json_load P (Text s)
      else if file_format =? "txt" then PStr <$> decoded kw
      else Return PNone
  | GcloudStorage _ _ _ _ =>
      match payload with
      | Binary binary_stream =>
          if file_format =? "csv" then PFrame <$> read_csv P payload kw
          else if file_format =? "parquet" then
            PFrame <$> read_parquet P payload kw
          else if file_format =? "json" then
            json_util_loads P binary_stream kw
          else if file_format =? "txt" then
            PStr <$> decode (lookup_error P) binary_stream kw
          else Return PNone
      | Text _ => Raise TypeError
      end
  end.

(** Each function is its retrieval followed by its table: the streams
    it allocates and reads do not show in the result. *)
Lemma call_decode_step (r : reader) (file_format : string) (kw : kwargs)
    (h : store) :
  fst (call r file_format kw h)
  = (payload ← retrieve r; decode_step r payload file_format kw).
Proof.
  destruct r as [url | url auth | name bkt prj cred]; simpl.
  - unfold read_public_file_from_gdrive.
    do 2 run_call. run_stream.
    repeat match goal with
           | |- context [if ?c then _ else _] => destruct c
           end;
      rewrite ?fmap_M, ?pd_read_csv_last, ?pd_read_excel_last,
        ?json_dot_load_last; reflexivity.
  - unfold read_private_file_from_gdrive.
    do 2 run_call. run_stream.
    repeat match goal with
           | |- context [if ?c then _ else _] => destruct c
           end.
    all: try run_stream.
    all: unfold bytes_decode.
    all: try run_call.
    all: try run_stream.
    all: rewrite ?fmap_M, ?pd_read_csv_last, ?pd_read_excel_direct,
           ?pd_read_parquet_last, ?json_dot_load_last.
    all: reflexivity.
  - unfold read_file_from_gcloud_storage.
    do 4 run_call.
    match goal with b : option (Blob W) |- _ => destruct b end;
      [run_call | run_lift; reflexivity].
    repeat match goal with
           | |- context [if ?c then _ else _] => destruct c
           end.
    all: try run_stream.
    all: rewrite ?fmap_M, ?pd_read_csv_last, ?pd_read_parquet_last.
    all: reflexivity.
Qed.

(** With a tag that has no branch, a call does the retrieval and
    nothing else. *)
Lemma call_unsupported (r : reader) (file_format : string) (kw : kwargs)
    (h : store) :
  file_format ∉ supported r ->
  fst (call r file_format kw h) = (retrieve r ≫= fun _ => Return PNone).
Proof.
  intros Hnot.
  assert (Heq : forall x, x ∈ supported r -> (file_format =? x) = false)
    by (intros x; apply eqb_not_elem_of; exact Hnot).
  destruct r as [url | url auth | name bkt prj cred]; simpl in *.
  - unfold read_public_file_from_gdrive.
    do 2 run_call. run_stream.
    rewrite !Heq by set_solver. reflexivity.
  - unfold read_private_file_from_gdrive.
    do 2 run_call. run_stream.
    rewrite !Heq by set_solver. reflexivity.
  - unfold read_file_from_gcloud_storage.
    do 4 run_call.
    match goal with b : option (Blob W) |- _ => destruct b end.
    + run_call. rewrite !Heq by set_solver. reflexivity.
    + run_lift. reflexivity.
Qed.
End Dispatch.

(** *** Unsupported format tags *)

(** C1.  For every format tag that the called function has no branch for
    (such as "yaml"), each of [read_public_file_from_gdrive],
    [read_private_file_from_gdrive] and [read_file_from_gcloud_storage]
    returns [None] and raises nothing of its own: the result is [None]
    whenever the retrieval delivers a payload, and otherwise it is the
    exception of the retrieval.  The statement is uniform in the three
    functions. *)
Theorem unsupported_format_returns_None
    (W : World) (P : Parsers) (r : reader W) (file_format : string)
    (kw : kwargs) (h : store) :
  file_format ∉ supported W r ->
  fst (call W P r file_format kw h) = (retrieve W r ≫= fun _ => Return PNone)
  /\ (forall payload : data,
        retrieve W r = Return payload ->
        fst (call W P r file_format kw h) = Return PNone).
Proof.
  intros Hnot.
  pose proof (call_unsupported W P r file_format kw h Hnot) as Hcall.
  split; [exact Hcall|].
  intros payload Hpayload. rewrite Hcall, Hpayload. reflexivity.
Qed.

Lemma unsupported_format_returns_None_witness :
  let public := PublicGdrive Sample.world (Sample.drive_url "CSV1") in
  let private := PrivateGdrive Sample.world (Sample.drive_url "CSV1") () in
  let storage := GcloudStorage Sample.world "CSV1" "bucket" "project" "key.json" in
  (("yaml" ∉ supported Sample.world public)
   /\ fst (read_public_file_from_gdrive Sample.world Sample.parsers
             (Sample.drive_url "CSV1") "yaml" ∅ []) = Return PNone)
  /\ (("yaml" ∉ supported Sample.world private)
      /\ fst (read_private_file_from_gdrive Sample.world Sample.parsers
                (Sample.drive_url "CSV1") "yaml" () ∅ []) = Return PNone)
  /\ (("yaml" ∉ supported Sample.world storage)
      /\ fst (read_file_from_gcloud_storage Sample.world Sample.parsers
                "CSV1" "yaml" "bucket" "project" "key.json" ∅ []) = Return PNone).
Proof.
  intros public private storage.
  assert (Hpub : "yaml" ∉ supported Sample.world public)
    by (apply (bool_decide_unpack _); vm_compute; exact I).
  assert (Hpriv : "yaml" ∉ supported Sample.world private)
    by (apply (bool_decide_unpack _); vm_compute; exact I).
  assert (Hsto : "yaml" ∉ supported Sample.world storage)
    by (apply (bool_decide_unpack _); vm_compute; exact I).
  split; [|split]; (split; [assumption|]).
  - exact (proj2 (unsupported_format_returns_None Sample.world Sample.parsers
                    public "yaml" ∅ [] Hpub) _ eq_refl).
  - exact (proj2 (unsupported_format_returns_None Sample.world Sample.parsers
                    private "yaml" ∅ [] Hpriv) _ eq_refl).
  - exact (proj2 (unsupported_format_returns_None Sample.world Sample.parsers
                    storage "yaml" ∅ [] Hsto) _ eq_refl).
Defined.

(** The formats the docstring of [read_file_from_gcloud_storage] lists:
    "File format can be 'csv', 'xlsx', 'parquet', 'json' or 'txt'". *)
Definition gcloud_storage_documented_formats : list string :=
  ["csv"; "xlsx"; "parquet"; "json"; "txt"].

(** C9.  [read_file_from_gcloud_storage] has no branch for "xlsx", a
    format its docstring lists: whatever the payload, the call returns
    [None], no frame, and it neither allocates nor reads a stream. *)
Theorem gcloud_storage_xlsx_returns_None
    (W : World) (P : Parsers)
    (file_name gcp_bucket gcp_project gcp_credentials_file : string)
    (kw : kwargs) (h : store) :
  let r := GcloudStorage W file_name gcp_bucket gcp_project gcp_credentials_file in
  ("xlsx" ∈ gcloud_storage_documented_formats)
  /\ ("xlsx" ∉ supported W r)
  /\ forall payload : data,
       retrieve W r = Return payload ->
       read_file_from_gcloud_storage W P file_name "xlsx" gcp_bucket
         gcp_project gcp_credentials_file kw h = (Return PNone, h).
Proof.
  intros r. split; [|split].
  - unfold gcloud_storage_documented_formats. set_solver.
  - apply (bool_decide_unpack _). vm_compute. exact I.
  - intros payload. subst r. unfold retrieve, read_file_from_gcloud_storage.
    repeat (run_lift;
            match goal with
            | |- context [match ?x with Return _ => _ | Raise _ => _ end] =>
                destruct x; simpl; [|discriminate]
            end).
    intros _. reflexivity.
Qed.

Lemma gcloud_storage_xlsx_returns_None_witness :
  read_file_from_gcloud_storage Sample.world Sample.parsers "XLSX1" "xlsx"
    "bucket" "project" "key.json" ∅ [] = (Return PNone, []).
Proof.
  exact (proj2 (proj2 (gcloud_storage_xlsx_returns_None Sample.world
           Sample.parsers "XLSX1" "bucket" "project" "key.json" ∅ []))
           _ eq_refl).
Defined.

(** *** Segments of a string *)

(** Whether [c] occurs in [s], and how often. *)
Fixpoint count_char (c : ascii) (s : string) : nat :=
  match s with
  | EmptyString => 0
  | String x r => (if Ascii.eqb x c then 1 else 0) + count_char c r
  end.

Definition char_free (c : ascii) (s : string) : Prop := count_char c s = 0%nat.

(** [sep.join(l)]. *)
Fixpoint join (sep : string) (l : list string) : string :=
  match l with
  | [] => EmptyString
  | [x] => x
  | x :: r => x +:+ sep +:+ join sep r
  end.

Lemma split_not_nil (c : ascii) (s : string) : split c s <> [].
Proof.
  destruct s as [|x r]; simpl; [discriminate|].
  destruct (Ascii.eqb x c); [discriminate|].
  destruct (split c r); discriminate.
Qed.

Lemma length_split (c : ascii) (s : string) :
  length (split c s) = S (count_char c s).
Proof.
  induction s as [|x r IH]; simpl; [reflexivity|].
  destruct (Ascii.eqb x c); simpl.
  - rewrite IH. reflexivity.
  - destruct (split c r) as [|y ys] eqn:E; simpl in *; [discriminate|exact IH].
Qed.

Lemma split_char_free (c : ascii) (s : string) :
  char_free c s -> split c s = [s].
Proof.
  unfold char_free. induction s as [|x r IH]; simpl; [reflexivity|].
  destruct (Ascii.eqb x c); simpl; [discriminate|].
  intros H. rewrite (IH H). reflexivity.
Qed.

Lemma split_segments_char_free (c : ascii) (s : string) :
  Forall (char_free c) (split c s).
Proof.
  induction s as [|x r IH]; simpl.
  - repeat constructor.
  - destruct (Ascii.eqb x c) eqn:E.
    + constructor; [reflexivity|exact IH].
    + destruct (split c r) as [|y ys]; [repeat constructor; unfold char_free;
        simpl; rewrite E; reflexivity|].
      inversion IH as [|? ? Hy Hys]; subst.
      constructor; [|exact Hys].
      unfold char_free in *. simpl. rewrite E. exact Hy.
Qed.

(** Splitting at a separator splits both sides. *)
Lemma split_app (c : ascii) (p b : string) :
  split c (p +:+ String c b) = split c p ++ split c b.
Proof.
  induction p as [|x r IH]; simpl.
  - rewrite Ascii.eqb_refl. reflexivity.
  - destruct (Ascii.eqb x c); [rewrite IH; reflexivity|].
    rewrite IH. destruct (split c r) as [|y ys] eqn:E; [|reflexivity].
    exfalso. exact (split_not_nil c r E).
Qed.

Lemma join_cons (sep x : string) (l : list string) :
  l <> [] -> join sep (x :: l) = x +:+ sep +:+ join sep l.
Proof. destruct l; [contradiction|reflexivity]. Qed.

Lemma join_split (c : ascii) (s : string) :
  join (String c EmptyString) (split c s) = s.
Proof.
  induction s as [|x r IH]; [reflexivity|].
  cbn [split].
  destruct (Ascii.eqb x c) eqn:E.
  - apply Ascii.eqb_eq in E. subst x.
    rewrite join_cons by apply split_not_nil. rewrite IH. reflexivity.
  - destruct (split c r) as [|y ys] eqn:Er;
      [exfalso; exact (split_not_nil c r Er)|].
    destruct ys as [|z zs].
    + cbn [join] in *. rewrite IH. reflexivity.
    + rewrite join_cons by discriminate.
      rewrite join_cons in IH by discriminate.
      rewrite <- IH. reflexivity.
Qed.

(** Joining separator-free segments and splitting again gives the
    segments back. *)
Lemma split_join (c : ascii) (l : list string) :
  l <> [] -> Forall (char_free c) l ->
  split c (join (String c EmptyString) l) = l.
Proof.
  induction l as [|x l IH]; [contradiction|]. intros _ Hall.
  inversion Hall as [|? ? Hx Hl]; subst.
  destruct l as [|y r]; [apply split_char_free; exact Hx|].
  rewrite join_cons by discriminate.
  change (x +:+ String c EmptyString +:+ join (String c EmptyString) (y :: r))
    with (x +:+ String c (join (String c EmptyString) (y :: r))).
  rewrite split_app, (split_char_free c x Hx), IH by (discriminate || exact Hl).
  reflexivity.
Qed.

(** *** The resource identifier of a URL *)

(** The second-to-last element of a list: the one at position 1 when the
    list is read from its end. *)
Definition second_to_last {A} (l : list A) : option A := reverse l !! 1%nat.

Lemma second_to_last_app {A} (pre : list A) (x last : A) :
  second_to_last (pre ++ [x; last]) = Some x.
Proof.
  unfold second_to_last. rewrite reverse_app. reflexivity.
Qed.

Lemma second_to_last_Some {A} (l : list A) (x : A) :
  second_to_last l = Some x <-> exists pre last, l = pre ++ [x; last].
Proof.
  split.
  - unfold second_to_last. intros H.
    destruct (reverse l) as [|last [|y t]] eqn:E; try discriminate.
    simpl in H. injection H as ->.
    exists (reverse t), last.
    rewrite <- (reverse_involutive l), E.
    rewrite !reverse_cons, <- app_assoc. reflexivity.
  - intros (pre & last & ->). apply second_to_last_app.
Qed.

(** Indexing with [-2] takes the second-to-last element, and raises on a
    list of fewer than two. *)
Lemma getitem_minus_2 {A} (l : list A) :
  getitem l (-2) =
  match second_to_last l with
  | Some x => Return x
  | None => Raise IndexError
  end.
Proof.
  unfold getitem, second_to_last.
  destruct (decide (2 <= length l)%nat) as [Hlen|Hlen].
  - rewrite reverse_lookup by lia.
    replace ((-2 <? 0)%Z) with true by reflexivity.
    replace ((0 <=? -2 + Z.of_nat (length l))%Z
             && (-2 + Z.of_nat (length l) <? Z.of_nat (length l))%Z)
      with true by (symmetry; apply andb_true_iff; split; lia).
    replace (Z.to_nat (-2 + Z.of_nat (length l))) with (length l - 2)%nat by lia.
    destruct (l !! (length l - 2)%nat) eqn:E; [reflexivity|].
    apply lookup_ge_None in E. lia.
  - replace ((-2 <? 0)%Z) with true by reflexivity.
    replace ((0 <=? -2 + Z.of_nat (length l))%Z) with false by (symmetry; lia).
    simpl.
    destruct (reverse l !! 1%nat) eqn:E; [|reflexivity].
    apply lookup_lt_Some in E. rewrite length_reverse in E. lia.
Qed.

(** [read_private_sheets] allocates no stream: it is a chain of calls. *)
Lemma read_private_sheets_result
    (W : World) (credentials_json sheet_url : string) (worksheet : Z)
    (h : store) :
  read_private_sheets W credentials_json sheet_url worksheet h =
  (file_id ← getitem (split "/" sheet_url) (-2);
   gcloud ← service_account W credentials_json;
   sheet ← open_by_key W gcloud file_id;
   worksheet ← get_worksheet W sheet worksheet;
   list_rows_worksheet ← get_all_values W worksheet;
   columns ← getitem list_rows_worksheet 0;
   PFrame <$> pd_DataFrame (slice_from list_rows_worksheet 1) columns, h).
Proof.
  unfold read_private_sheets.
  do 6 run_call.
  rewrite fmap_M. reflexivity.
Qed.

(** C3.  The identifier that [read_public_file_from_gdrive],
    [read_private_sheets] and [read_private_file_from_gdrive] extract from
    a URL is its second-to-last "/"-delimited segment: for the URL made of
    any segments, then [id], then [last], joined by "/", the extraction
    gives [id], and [id] is what the download URL ends with, what the
    spreadsheet is opened by, and what the Drive file is created with.
    Every URL from which an identifier is extracted is of that form.  For
    "https://docs.google.com/spreadsheets/d/ABC123/edit#gid=0" the
    identifier is "ABC123". *)
Theorem url_identifier_is_second_to_last_segment
    (W : World) (P : Parsers) (segments : list string) (id last : string) :
  Forall (char_free "/") (segments ++ [id; last]) ->
  let url := join "/" (segments ++ [id; last]) in
  getitem (split "/" url) (-2) = Return id
  /\ (forall file_format kw h,
        fst (read_public_file_from_gdrive W P url file_format kw h) =
        (response ← requests_get W
           ("https://drive.google.com/uc?export=download&id=" +:+ id);
         decode_step W P (PublicGdrive W url) (Text (text response))
           file_format kw))
  /\ (forall credentials_json worksheet h,
        fst (read_private_sheets W credentials_json url worksheet h) =
        (gcloud ← service_account W credentials_json;
         sheet ← open_by_key W gcloud id;
         worksheet ← get_worksheet W sheet worksheet;
         list_rows_worksheet ← get_all_values W worksheet;
         columns ← getitem list_rows_worksheet 0;
         PFrame <$> pd_DataFrame (slice_from list_rows_worksheet 1) columns))
  /\ (forall file_format google_auth kw h,
        fst (read_private_file_from_gdrive W P url file_format google_auth kw h) =
        (content ← GetContentIOBuffer W
           (CreateFile W (GoogleDrive W google_auth) id);
         decode_step W P (PrivateGdrive W url google_auth) (Binary content)
           file_format kw))
  /\ (forall url' id',
        getitem (split "/" url') (-2) = Return id' ->
        exists segments' last',
          Forall (char_free "/") (segments' ++ [id'; last'])
          /\ url' = join "/" (segments' ++ [id'; last']))
  /\ getitem
       (split "/" "https://docs.google.com/spreadsheets/d/ABC123/edit#gid=0")
       (-2)
     = Return "ABC123".
Proof.
  assert (Hjoin : forall segs x y,
    Forall (char_free "/") (segs ++ [x; y]) ->
    getitem (split "/" (join "/" (segs ++ [x; y]))) (-2) = Return x).
  { intros segs x y Hall.
    rewrite (split_join "/" (segs ++ [x; y])); [| |exact Hall].
    - rewrite getitem_minus_2, second_to_last_app. reflexivity.
    - destruct segs; discriminate. }
  intros Hfree url.
  assert (Hget : getitem (split "/" url) (-2) = Return id)
    by (apply Hjoin; exact Hfree).
  split; [exact Hget|]. split; [|split; [|split; [|split]]].
  - intros file_format kw h.
    change (read_public_file_from_gdrive W P url file_format kw h)
      with (call W P (PublicGdrive W url) file_format kw h).
    rewrite call_decode_step.
    unfold retrieve. rewrite Hget. simpl.
    destruct (requests_get W _); reflexivity.
  - intros credentials_json worksheet h.
    rewrite read_private_sheets_result, Hget. reflexivity.
  - intros file_format google_auth kw h.
    change (read_private_file_from_gdrive W P url file_format google_auth kw h)
      with (call W P (PrivateGdrive W url google_auth) file_format kw h).
    rewrite call_decode_step.
    unfold retrieve. rewrite Hget. simpl.
    destruct (GetContentIOBuffer W _); reflexivity.
  - intros url' id' Hid. rewrite getitem_minus_2 in Hid.
    destruct (second_to_last (split "/" url')) as [x|] eqn:E; [|discriminate].
    injection Hid as ->.
    apply second_to_last_Some in E as (pre & last' & Hsplit).
    exists pre, last'. split.
    + rewrite <- Hsplit. apply split_segments_char_free.
    + rewrite <- Hsplit. symmetry. apply (join_split "/").
  - apply (Hjoin ["https:"; ""; "docs.google.com"; "spreadsheets"; "d"]
             "ABC123" "edit#gid=0").
    repeat constructor.
Qed.

Lemma url_identifier_is_second_to_last_segment_witness :
  Sample.sheet_url
  = join "/" (["https:"; ""; "docs.google.com"; "spreadsheets"; "d"]
              ++ ["ABC123"; "edit#gid=0"])
  /\ getitem (split "/" Sample.sheet_url) (-2) = Return "ABC123"
  /\ fst (read_private_sheets Sample.world "key.json" Sample.sheet_url 0 [])
     = Return (PFrame (mkDataFrame ["name"; "age"]
                         [[Object "ann"; Object "31"];
                          [Object "bob"; Object "27"]])).
Proof.
  assert (Hfree : Forall (char_free "/")
            (["https:"; ""; "docs.google.com"; "spreadsheets"; "d"]
             ++ ["ABC123"; "edit#gid=0"])) by (repeat constructor).
  pose proof (url_identifier_is_second_to_last_segment Sample.world
                Sample.parsers
                ["https:"; ""; "docs.google.com"; "spreadsheets"; "d"]
                "ABC123" "edit#gid=0" Hfree)
    as (Hget & _ & Hsheets & _).
  split; [reflexivity|]. split; [exact Hget|].
  exact (eq_trans (Hsheets "key.json" 0%Z []) eq_refl).
Defined.

(** *** The frame of a worksheet *)

Lemma pad_row_exact (row : list string) :
  pad_row (length row) row = Object <$> row.
Proof.
  unfold pad_row. rewrite Nat.sub_diag. simpl. apply app_nil_r.
Qed.

Lemma max_width_rectangular (width : nat) (row : list string)
    (rows : list (list string)) :
  Forall (fun r => length r = width) (row :: rows) ->
  foldr Nat.max 0%nat (length <$> (row :: rows)) = width.
Proof.
  revert row. induction rows as [|r rows IH]; intros row Hall.
  - inversion Hall; subst. simpl. lia.
  - inversion Hall as [|? ? Hrow Hrest]; subst.
    specialize (IH r Hrest). simpl in *. rewrite IH.
    inversion Hrest; subst. lia.
Qed.

(** On rows as wide as the list of labels, the constructor keeps the
    labels and the rows as they are. *)
Lemma pd_DataFrame_rectangular (rows : list (list string))
    (columns : list string) :
  Forall (fun r => length r = length columns) rows ->
  pd_DataFrame rows columns
  = Return (mkDataFrame columns ((fun row : list string => Object <$> row) <$> rows)).
Proof.
  intros Hall. destruct rows as [|row rows]; [reflexivity|].
  unfold pd_DataFrame.
  rewrite (max_width_rectangular (length columns) row rows Hall).
  rewrite Nat.eqb_refl. do 2 f_equal.
  apply list_fmap_ext. intros i r Hr.
  rewrite Forall_lookup in Hall. rewrite <- (Hall i r Hr).
  apply pad_row_exact.
Qed.

(** The constructor rejects a table only with [ValueError]. *)
Lemma pd_DataFrame_not_IndexError (rows : list (list string))
    (columns : list string) :
  pd_DataFrame rows columns <> Raise IndexError.
Proof.
  unfold pd_DataFrame. destruct rows; [discriminate|].
  destruct (_ =? _)%nat; discriminate.
Qed.

Section Worksheet.
Context (W : World).
Variables (credentials_json sheet_url file_id : string) (worksheet : Z).
Variables (gcloud : gspread_Client W) (sheet : gspread_Spreadsheet W)
          (ws : gspread_Worksheet W) (list_rows_worksheet : list (list string)).

(** The retrieval of [read_private_sheets] went through and delivered
    [list_rows_worksheet]. *)
Hypothesis Hid : getitem (split "/" sheet_url) (-2) = Return file_id.
Hypothesis Hclient : service_account W credentials_json = Return gcloud.
Hypothesis Hopen : open_by_key W gcloud file_id = Return sheet.
Hypothesis Hworksheet : get_worksheet W sheet worksheet = Return ws.
Hypothesis Hvalues : get_all_values W ws = Return list_rows_worksheet.

Lemma read_private_sheets_of_rows (h : store) :
  read_private_sheets W credentials_json sheet_url worksheet h =
  (columns ← getitem list_rows_worksheet 0;
   PFrame <$> pd_DataFrame (slice_from list_rows_worksheet 1) columns, h).
Proof.
  rewrite read_private_sheets_result, Hid. simpl.
  rewrite Hclient. simpl. rewrite Hopen. simpl.
  rewrite Hworksheet. simpl. rewrite Hvalues. reflexivity.
Qed.

(** C4.  When the values retrieved from the worksheet are a non-empty
    list of rows (of one width, as a worksheet's values are),
    [read_private_sheets] returns the frame whose column labels are the
    first row and whose data rows are the remaining rows, in order. *)
Theorem read_private_sheets_first_row_is_header
    (header : list string) (body : list (list string)) (h : store) :
  list_rows_worksheet = header :: body ->
  Forall (fun row => length row = length header) body ->
  read_private_sheets W credentials_json sheet_url worksheet h
  = (Return (PFrame (mkDataFrame header ((fun row : list string => Object <$> row) <$> body))), h).
Proof.
  intros Hrows Hrect.
  rewrite read_private_sheets_of_rows. subst list_rows_worksheet.
  change (getitem (header :: body) 0) with (Return (A := list string) header).
  change (slice_from (header :: body) 1) with body.
  simpl. rewrite (pd_DataFrame_rectangular body header Hrect). reflexivity.
Qed.

(** C10.  [read_private_sheets] needs a worksheet with at least one row:
    on an empty list of rows the header lookup raises [IndexError], where
    an empty frame might have been returned; and that is the only way to
    this error, so on a non-empty worksheet it cannot occur. *)
Theorem read_private_sheets_empty_worksheet_raises (h : store) :
  (list_rows_worksheet = [] ->
   read_private_sheets W credentials_json sheet_url worksheet h
   = (Raise IndexError, h))
  /\ (list_rows_worksheet <> [] ->
      fst (read_private_sheets W credentials_json sheet_url worksheet h)
      <> Raise IndexError)
  /\ (fst (read_private_sheets W credentials_json sheet_url worksheet h)
      = Raise IndexError <-> list_rows_worksheet = []).
Proof.
  assert (Hempty : list_rows_worksheet = [] ->
    read_private_sheets W credentials_json sheet_url worksheet h
    = (Raise IndexError, h)).
  { intros Hrows. rewrite read_private_sheets_of_rows, Hrows. reflexivity. }
  assert (Hnonempty : list_rows_worksheet <> [] ->
    fst (read_private_sheets W credentials_json sheet_url worksheet h)
    <> Raise IndexError).
  { intros Hrows. rewrite read_private_sheets_of_rows.
    destruct list_rows_worksheet as [|header body]; [contradiction|].
    change (getitem (header :: body) 0) with (Return (A := list string) header).
    change (slice_from (header :: body) 1) with body. simpl.
    pose proof (pd_DataFrame_not_IndexError body header) as Hframe.
    destruct (pd_DataFrame body header) as [df|e]; simpl; congruence. }
  split; [exact Hempty|]. split; [exact Hnonempty|].
  split.
  - intros Herr. destruct list_rows_worksheet as [|header body] eqn:E;
      [reflexivity|].
    exfalso. apply Hnonempty; [discriminate | exact Herr].
  - intros Hrows. rewrite (Hempty Hrows). reflexivity.
Qed.
End Worksheet.

Lemma read_private_sheets_first_row_is_header_witness :
  read_private_sheets Sample.world "key.json" Sample.sheet_url 0 []
  = (Return (PFrame (mkDataFrame ["name"; "age"]
                       [[Object "ann"; Object "31"];
                        [Object "bob"; Object "27"]])), []).
Proof.
  refine (read_private_sheets_first_row_is_header Sample.world "key.json"
            Sample.sheet_url "ABC123" 0 () _ _ _
            eq_refl eq_refl eq_refl eq_refl eq_refl
            ["name"; "age"] [["ann"; "31"]; ["bob"; "27"]] [] eq_refl _).
  repeat constructor.
Defined.

Lemma read_private_sheets_empty_worksheet_raises_witness :
  read_private_sheets Sample.world "key.json"
    "https://docs.google.com/spreadsheets/d/EMPTY/edit" 0 []
  = (Raise IndexError, []).
Proof.
  refine (proj1 (read_private_sheets_empty_worksheet_raises Sample.world
            "key.json" "https://docs.google.com/spreadsheets/d/EMPTY/edit"
            "EMPTY" 0 () _ _ []
            eq_refl eq_refl eq_refl eq_refl eq_refl []) eq_refl).
Defined.

(** *** Text payloads *)

Section Utf8.
Context (lookup : string -> option error_handler).


Lemma decode_no_kwargs (b : bytes) :
  decode lookup b ∅ = utf8_decode lookup "strict" b.
Proof. reflexivity. Qed.

Lemma decode_errors (errors : string) (b : bytes) :
  embedded_null errors = false ->
  decode lookup b {["errors" := PStr errors]} = utf8_decode lookup errors b.
Proof.
  intros Hnull. unfold decode. rewrite bool_decide_eq_true_2.
  - rewrite lookup_singleton_eq, Hnull. reflexivity.
  - rewrite dom_singleton_L. reflexivity.
Qed.


End Utf8.

(** Malformed input under the standard policies. *)
Example decode_malformed :
  let b := [x68; xff; x69]%byte in
  decode builtin_error_handler b ∅ = Raise UnicodeDecodeError
  /\ decode builtin_error_handler b {["errors" := PStr "ignore"]} = Return "hi"
  /\ decode builtin_error_handler b {["errors" := PStr "replace"]}
     = Return (String "h" (string_of_bytes [xef; xbf; xbd]%byte +:+ "i"))
  /\ decode builtin_error_handler b {["errors" := PStr "backslashreplace"]}
     = Return "h\xffi"
  /\ decode builtin_error_handler b {["errors" := PStr "surrogateescape"]}
     = Return (String "h" (string_of_bytes [xed; xb3; xbf]%byte +:+ "i"))
  /\ decode builtin_error_handler b {["errors" := PStr "surrogatepass"]}
     = Raise UnicodeDecodeError
  /\ decode builtin_error_handler b {["errors" := PStr "xmlcharrefreplace"]}
     = Raise TypeError
  /\ decode builtin_error_handler b {["errors" := PStr "no-such-policy"]}
     = Raise LookupError.
Proof. repeat split; vm_compute; reflexivity. Qed.




(** *** What the retrieval delivers *)

Section Retrieval.
Context (W : World).

Lemma retrieve_public_text (file_url : string) (payload : data) :
  retrieve W (PublicGdrive W file_url) = Return payload ->
  exists response, payload = Text (text response).
Proof.
  unfold retrieve.
  destruct (getitem _ _) as [id|]; simpl; [|discriminate].
  destruct (requests_get W _) as [response|]; simpl; [|discriminate].
  intros [= <-]. eauto.
Qed.

Lemma retrieve_private_binary (file_url : string) (google_auth : GoogleAuth W)
    (payload : data) :
  retrieve W (PrivateGdrive W file_url google_auth) = Return payload ->
  exists b, payload = Binary b.
Proof.
  unfold retrieve.
  destruct (getitem _ _) as [id|]; simpl; [|discriminate].
  destruct (GetContentIOBuffer W _) as [b|]; simpl; [|discriminate].
  intros [= <-]. eauto.
Qed.

Lemma retrieve_gcloud_binary
    (file_name gcp_bucket gcp_project gcp_credentials_file : string)
    (payload : data) :
  retrieve W (GcloudStorage W file_name gcp_bucket gcp_project
                gcp_credentials_file) = Return payload ->
  exists b, payload = Binary b.
Proof.
  unfold retrieve.
  destruct (from_service_account_file W _) as [c|]; simpl; [|discriminate].
  destruct (Client W _ _) as [sc|]; simpl; [|discriminate].
  destruct (get_bucket W _ _) as [bk|]; simpl; [|discriminate].
  destruct (get_blob W _ _) as [[bl|]|]; simpl; try discriminate.
  destruct (download_as_string W _) as [b|]; simpl; [|discriminate].
  intros [= <-]. eauto.
Qed.
End Retrieval.

(** *** Comma-separated payloads *)

(** The frame of the reference reader: its labels are the fields of the
    first non-empty line, and it has one row of that width for every
    further non-empty line. *)
Lemma spec_read_csv_header (d : data) (df : DataFrame) :
  Reference.spec_read_csv d = Return df ->
  exists (s header : string) (body : list string),
    Reference.text_of d = Return s
    /\ Reference.csv_lines s = header :: body
    /\ columns df = split "," header
    /\ length (rows df) = length body
    /\ Forall (fun row => length row = length (columns df)) (rows df).
Proof.
  unfold Reference.spec_read_csv.
  destruct (Reference.text_of d) as [s|]; simpl; [|discriminate].
  destruct (Reference.csv_lines s) as [|header body] eqn:Hlines; [discriminate|].
  destruct (forallb _ _); [|discriminate].
  intros [= <-]. exists s, header, body. simpl.
  split; [reflexivity|]. split; [exact Hlines|]. split; [reflexivity|].
  split.
  - rewrite !length_fmap. reflexivity.
  - apply Forall_fmap, Forall_true. intros row. simpl.
    unfold Reference.csv_row. rewrite length_fmap, length_seq. reflexivity.
Qed.

(** C7.  A payload with format tag "csv" is handed, with the caller's
    options, to the CSV reader, and the frame of the reader is the result:
    the text of the response in [read_public_file_from_gdrive], the raw
    bytes in [read_file_from_gcloud_storage], the decoded bytes in
    [read_private_file_from_gdrive].  At its default options the reader
    makes the frame from comma-separated text with the first row as the
    column headers; so "a,b\n1,2\n3,4" gives the columns a, b and the two
    rows (1,2), (3,4). *)
Theorem csv_decodes_to_frame_with_header
    (W : World) (P : Parsers) (r : reader W) (payload : data) (kw : kwargs)
    (h : store) :
  retrieve W r = Return payload ->
  (forall file_url, r = PublicGdrive W file_url ->
     fst (call W P r "csv" kw h) = PFrame <$> read_csv P payload kw)
  /\ (forall file_name gcp_bucket gcp_project gcp_credentials_file,
        r = GcloudStorage W file_name gcp_bucket gcp_project
              gcp_credentials_file ->
        fst (call W P r "csv" kw h) = PFrame <$> read_csv P payload kw)
  /\ (forall file_url google_auth, r = PrivateGdrive W file_url google_auth ->
        exists b, payload = Binary b
          /\ fst (call W P r "csv" kw h)
             = (s ← decode (lookup_error P) b ∅;
                PFrame <$> read_csv P (Text s) kw))
  /\ (forall open_workbook Q d df,
        read_csv (Reference.spec_parsers open_workbook Q) d ∅ = Return df ->
        exists (s header : string) (body : list string),
          Reference.text_of d = Return s
          /\ Reference.csv_lines s = header :: body
          /\ columns df = split "," header
          /\ length (rows df) = length body
          /\ Forall (fun row => length row = length (columns df)) (rows df))
  /\ (forall open_workbook Q,
        read_csv (Reference.spec_parsers open_workbook Q)
          (Text Sample.csv_text) ∅
        = Return (mkDataFrame ["a"; "b"]
                    [[Int64 1; Int64 2]; [Int64 3; Int64 4]])).
Proof.
  intros Hpayload.
  split; [|split; [|split; [|split]]].
  - intros file_url ->. rewrite call_decode_step, Hpayload. reflexivity.
  - intros file_name gcp_bucket gcp_project gcp_credentials_file ->.
    rewrite call_decode_step, Hpayload.
    destruct (retrieve_gcloud_binary W _ _ _ _ _ Hpayload) as [b ->].
    reflexivity.
  - intros file_url google_auth ->.
    destruct (retrieve_private_binary W _ _ _ Hpayload) as [b ->].
    exists b. split; [reflexivity|].
    rewrite call_decode_step, Hpayload. reflexivity.
  - intros open_workbook Q d df. simpl. apply spec_read_csv_header.
  - intros open_workbook Q. vm_compute. reflexivity.
Qed.

Lemma csv_decodes_to_frame_with_header_witness :
  let frame := PFrame (mkDataFrame ["a"; "b"]
                         [[Int64 1; Int64 2]; [Int64 3; Int64 4]]) in
  fst (read_public_file_from_gdrive Sample.world Sample.parsers
         (Sample.drive_url "CSV1") "csv" ∅ []) = Return frame
  /\ fst (read_file_from_gcloud_storage Sample.world Sample.parsers "CSV1"
            "csv" "bucket" "project" "key.json" ∅ []) = Return frame.
Proof.
  intros frame. split.
  - pose proof (csv_decodes_to_frame_with_header Sample.world Sample.parsers
      (PublicGdrive Sample.world (Sample.drive_url "CSV1"))
      (Text Sample.csv_text) ∅ [] eq_refl) as (Hpublic & _).
    refine (eq_trans (Hpublic _ eq_refl) _). vm_compute. reflexivity.
  - pose proof (csv_decodes_to_frame_with_header Sample.world Sample.parsers
      (GcloudStorage Sample.world "CSV1" "bucket" "project" "key.json")
      (Binary (bytes_of_string Sample.csv_text)) ∅ [] eq_refl)
      as (_ & Hstorage & _).
    refine (eq_trans (Hstorage _ _ _ _ eq_refl) _). vm_compute. reflexivity.
Defined.

(** *** JSON payloads *)

(** An object that uses neither extended key is the plain mapping. *)
Lemma extended_object_plain (pairs : list (string * pyval)) :
  Json.dict_get "$oid" (Json.dict_of_pairs pairs) = None ->
  Json.dict_get "$numberLong" (Json.dict_of_pairs pairs) = None ->
  Reference.extended_object pairs = Reference.plain_object pairs.
Proof.
  intros Hoid Hlong. unfold Reference.extended_object.
  rewrite Hoid, Hlong. reflexivity.
Qed.

(** C6.  With format tag "json", [read_file_from_gcloud_storage] hands the
    raw bytes and the caller's options to the extended JSON decoder of
    [bson.json_util], whereas the Drive functions hand the text to the plain
    [json.load], without options.  The plain decoder yields the key-ordered
    mapping of the document; the extended one also turns the objects that
    denote extended types into values of those types, and agrees with the
    plain one on every other object.  Both decode
    [{"x": 1, "y": [2,3]}] to the mapping [{x: 1, y: [2,3]}]. *)
Theorem json_decoding_plain_and_extended
    (W : World) (P : Parsers) (r : reader W) (payload : data) (kw : kwargs)
    (h : store) :
  retrieve W r = Return payload ->
  (forall file_name gcp_bucket gcp_project gcp_credentials_file,
     r = GcloudStorage W file_name gcp_bucket gcp_project
           gcp_credentials_file ->
     exists b, payload = Binary b
       /\ fst (call W P r "json" kw h) = json_util_loads P b kw)
  /\ (forall file_url, r = PublicGdrive W file_url ->
        fst (call W P r "json" kw h) = json_load P payload)
  /\ (forall file_url google_auth, r = PrivateGdrive W file_url google_auth ->
        exists b, payload = Binary b
          /\ fst (call W P r "json" kw h)
             = (s ← decode (lookup_error P) b ∅; json_load P (Text s)))
  /\ (forall open_workbook Q,
        let mapping := PDict [("x", PInt 1); ("y", PList [PInt 2; PInt 3])] in
        json_util_loads (Reference.spec_parsers open_workbook Q)
          (bytes_of_string Sample.json_text) ∅ = Return mapping
        /\ json_load (Reference.spec_parsers open_workbook Q)
             (Text Sample.json_text) = Return mapping)
  /\ (forall open_workbook Q,
        json_util_loads (Reference.spec_parsers open_workbook Q)
          (bytes_of_string Sample.extended_json_text) ∅
        = Return (PDict [("n", PInt64 5)])
        /\ json_load (Reference.spec_parsers open_workbook Q)
             (Text Sample.extended_json_text)
           = Return (PDict [("n", PDict [("$numberLong", PStr "5")])]))
  /\ (forall pairs,
        Json.dict_get "$oid" (Json.dict_of_pairs pairs) = None ->
        Json.dict_get "$numberLong" (Json.dict_of_pairs pairs) = None ->
        Reference.extended_object pairs = Reference.plain_object pairs).
Proof.
  intros Hpayload.
  split; [|split; [|split; [|split; [|split]]]].
  - intros file_name gcp_bucket gcp_project gcp_credentials_file ->.
    destruct (retrieve_gcloud_binary W _ _ _ _ _ Hpayload) as [b ->].
    exists b. split; [reflexivity|].
    rewrite call_decode_step, Hpayload. reflexivity.
  - intros file_url ->. rewrite call_decode_step, Hpayload. reflexivity.
  - intros file_url google_auth ->.
    destruct (retrieve_private_binary W _ _ _ Hpayload) as [b ->].
    exists b. split; [reflexivity|].
    rewrite call_decode_step, Hpayload. reflexivity.
  - intros open_workbook Q mapping. split; vm_compute; reflexivity.
  - intros open_workbook Q. split; vm_compute; reflexivity.
  - exact extended_object_plain.
Qed.

Lemma json_decoding_plain_and_extended_witness :
  let mapping := PDict [("x", PInt 1); ("y", PList [PInt 2; PInt 3])] in
  fst (read_file_from_gcloud_storage Sample.world Sample.parsers "JSON1"
         "json" "bucket" "project" "key.json" ∅ []) = Return mapping
  /\ fst (read_public_file_from_gdrive Sample.world Sample.parsers
            (Sample.drive_url "JSON1") "json" ∅ []) = Return mapping
  /\ fst (read_private_file_from_gdrive Sample.world Sample.parsers
            (Sample.drive_url "JSON1") "json" () ∅ []) = Return mapping.
Proof.
  intros mapping. split; [|split].
  - pose proof (json_decoding_plain_and_extended Sample.world Sample.parsers
      (GcloudStorage Sample.world "JSON1" "bucket" "project" "key.json")
      (Binary (bytes_of_string Sample.json_text)) ∅ [] eq_refl)
      as (Hstorage & _).
    destruct (Hstorage _ _ _ _ eq_refl) as (b & Hb & Hcall).
    injection Hb as <-.
    refine (eq_trans Hcall _). vm_compute. reflexivity.
  - pose proof (json_decoding_plain_and_extended Sample.world Sample.parsers
      (PublicGdrive Sample.world (Sample.drive_url "JSON1"))
      (Text Sample.json_text) ∅ [] eq_refl) as (_ & Hpublic & _).
    refine (eq_trans (Hpublic _ eq_refl) _). vm_compute. reflexivity.
  - pose proof (json_decoding_plain_and_extended Sample.world Sample.parsers
      (PrivateGdrive Sample.world (Sample.drive_url "JSON1") ())
      (Binary (bytes_of_string Sample.json_text)) ∅ [] eq_refl)
      as (_ & _ & Hprivate & _).
    destruct (Hprivate _ _ eq_refl) as (b & Hb & Hcall).
    injection Hb as <-.
    refine (eq_trans Hcall _). vm_compute. reflexivity.
Defined.

(** *** Spreadsheet payloads *)

Section Xlsx.
Context (W : World) (open_workbook : bytes -> option Reference.workbook)
        (Q : Parsers).
Let P := Reference.spec_parsers open_workbook Q.

(** [read_public_file_from_gdrive] wraps the text of the response, not its
    content, and hands that to the spreadsheet reader. *)
Lemma public_xlsx_reads_text (file_url : string) (payload : data)
    (kw : kwargs) (h : store) :
  retrieve W (PublicGdrive W file_url) = Return payload ->
  exists response,
    payload = Text (text response)
    /\ fst (read_public_file_from_gdrive W P file_url "xlsx" kw h)
       = PFrame <$> read_excel P (Text (text response)) kw.
Proof.
  intros Hpayload.
  destruct (retrieve_public_text W _ _ Hpayload) as [response ->].
  exists response. split; [reflexivity|].
  change (read_public_file_from_gdrive W P file_url "xlsx" kw h)
    with (call W P (PublicGdrive W file_url) "xlsx" kw h).
  rewrite call_decode_step, Hpayload. reflexivity.
Qed.

(** The reader takes binary content only, so that call never yields a
    frame. *)
Lemma public_xlsx_raises (file_url : string) (payload : data)
    (sheet_name : option pyval) (h : store) :
  retrieve W (PublicGdrive W file_url) = Return payload ->
  fst (read_public_file_from_gdrive W P file_url "xlsx"
         (from_option (fun v => {["sheet_name" := v]}) ∅ sheet_name) h)
  = Raise ParserError.
Proof.
  intros Hpayload.
  destruct (public_xlsx_reads_text file_url payload
              (from_option (fun v => {["sheet_name" := v]}) ∅ sheet_name) h
              Hpayload) as (response & _ & ->).
  subst P. simpl.
  rewrite bool_decide_eq_true_2; [reflexivity|].
  destruct sheet_name; simpl.
  - rewrite dom_singleton_L. reflexivity.
  - rewrite dom_empty_L. apply empty_subseteq.
Qed.

(** [read_private_file_from_gdrive] hands over the bytes, and gets the
    first sheet, or the sheet that [sheet_name] selects. *)
Lemma private_xlsx_reads_bytes (file_url : string) (google_auth : GoogleAuth W)
    (b : bytes) (sheet_name : option pyval) (h : store) :
  retrieve W (PrivateGdrive W file_url google_auth) = Return (Binary b) ->
  fst (read_private_file_from_gdrive W P file_url "xlsx" google_auth
         (from_option (fun v => {["sheet_name" := v]}) ∅ sheet_name) h)
  = PFrame <$> Reference.spec_read_excel open_workbook (Binary b) sheet_name.
Proof.
  intros Hpayload.
  change (read_private_file_from_gdrive W P file_url "xlsx" google_auth ?kw h)
    with (call W P (PrivateGdrive W file_url google_auth) "xlsx" kw h).
  rewrite call_decode_step, Hpayload. subst P. simpl.
  rewrite bool_decide_eq_true_2.
  - destruct sheet_name; simpl.
    + rewrite lookup_singleton_eq. reflexivity.
    + reflexivity.
  - destruct sheet_name; simpl.
    + rewrite dom_singleton_L. reflexivity.
    + rewrite dom_empty_L. apply empty_subseteq.
Qed.
End Xlsx.

(** C2, at the failing input.  The same spreadsheet file, read with format
    tag "xlsx": [read_private_file_from_gdrive] returns its first sheet, or
    the sheet an option names, but [read_public_file_from_gdrive] raises,
    because the reader is given a text stream. *)
Theorem public_xlsx_never_yields_frame :
  fst (read_public_file_from_gdrive Sample.world Sample.parsers
         (Sample.drive_url "XLSX1") "xlsx" ∅ []) = Raise ParserError
  /\ fst (read_private_file_from_gdrive Sample.world Sample.parsers
            (Sample.drive_url "XLSX1") "xlsx" () ∅ [])
     = Return (PFrame Sample.first_sheet)
  /\ fst (read_private_file_from_gdrive Sample.world Sample.parsers
            (Sample.drive_url "XLSX1") "xlsx" ()
            {["sheet_name" := PStr "Sheet2"]} [])
     = Return (PFrame Sample.second_sheet).
Proof.
  split; [|split].
  - exact (public_xlsx_raises Sample.world Sample.open_workbook
             Sample.no_parsers (Sample.drive_url "XLSX1") _ None [] eq_refl).
  - refine (eq_trans
             (private_xlsx_reads_bytes Sample.world Sample.open_workbook
                Sample.no_parsers (Sample.drive_url "XLSX1") ()
                Sample.xlsx_bytes None [] eq_refl) _).
    vm_compute. reflexivity.
  - refine (eq_trans
             (private_xlsx_reads_bytes Sample.world Sample.open_workbook
                Sample.no_parsers (Sample.drive_url "XLSX1") ()
                Sample.xlsx_bytes (Some (PStr "Sheet2")) [] eq_refl) _).
    vm_compute. reflexivity.
Qed.

(** ** Further properties of the readers *)

(** *** Segments of a URL *)

(** X3.  [split] cuts a string at every separator and nowhere else: there
    is one segment more than there are separators, no segment contains the
    separator, and joining the segments with the separator gives the string
    back. *)
Theorem split_segments_round_trip (c : ascii) (s : string) :
  length (split c s) = S (count_char c s)
  /\ Forall (char_free c) (split c s)
  /\ join (String c EmptyString) (split c s) = s.
Proof.
  split; [apply length_split|]. split; [apply split_segments_char_free|].
  apply join_split.
Qed.

(** Indexing the segments with [-2] fails exactly when there is no
    separator. *)
Lemma getitem_split_IndexError (url : string) :
  getitem (split "/" url) (-2) = Raise IndexError <-> char_free "/" url.
Proof.
  rewrite getitem_minus_2. unfold second_to_last, char_free.
  pose proof (length_split "/" url) as Hlen.
  destruct (reverse (split "/" url) !! 1%nat) as [x|] eqn:E.
  - apply lookup_lt_Some in E. rewrite length_reverse in E.
    split; [discriminate|]. intros H0. rewrite H0 in Hlen. lia.
  - apply lookup_ge_None in E. rewrite length_reverse in E.
    split; [|reflexivity]. intros _. lia.
Qed.

(** X1.  A URL without any "/" makes [read_public_file_from_gdrive],
    [read_private_sheets] and [read_private_file_from_gdrive] raise
    [IndexError], whatever the remote services would answer, whatever the
    format tag and the options; no stream is allocated.  It is the only way
    the extraction of the identifier fails. *)
Theorem url_without_slash_raises_IndexError
    (W : World) (P : Parsers) (url : string) :
  char_free "/" url ->
  (forall file_format kw h,
     read_public_file_from_gdrive W P url file_format kw h
     = (Raise IndexError, h))
  /\ (forall credentials_json worksheet h,
        read_private_sheets W credentials_json url worksheet h
        = (Raise IndexError, h))
  /\ (forall file_format google_auth kw h,
        read_private_file_from_gdrive W P url file_format google_auth kw h
        = (Raise IndexError, h))
  /\ (forall url', getitem (split "/" url') (-2) = Raise IndexError ->
        char_free "/" url').
Proof.
  intros Hfree. apply getitem_split_IndexError in Hfree.
  split; [|split; [|split]].
  - intros file_format kw h. unfold read_public_file_from_gdrive.
    run_lift. rewrite Hfree. reflexivity.
  - intros credentials_json worksheet h. unfold read_private_sheets.
    run_lift. rewrite Hfree. reflexivity.
  - intros file_format google_auth kw h. unfold read_private_file_from_gdrive.
    cbv zeta. run_lift. rewrite Hfree. reflexivity.
  - intros url'. apply getitem_split_IndexError.
Qed.

Lemma url_without_slash_raises_IndexError_witness :
  read_public_file_from_gdrive Sample.world Sample.parsers "CSV1" "csv" ∅ []
  = (Raise IndexError, [])
  /\ read_private_sheets Sample.world "key.json" "ABC123" 0 []
     = (Raise IndexError, []).
Proof.
  pose proof (url_without_slash_raises_IndexError Sample.world Sample.parsers
                "CSV1" eq_refl) as (Hpublic & _).
  pose proof (url_without_slash_raises_IndexError Sample.world Sample.parsers
                "ABC123" eq_refl) as (_ & Hsheets & _).
  split; [apply Hpublic | apply Hsheets].
Defined.

(** X2.  The identifier taken from a URL is the text between its last two
    "/": for a URL [p/a/b] where neither [a] nor [b] contains a "/", it is
    [a], whatever [p] is.  So a URL that ends with the identifier itself,
    with nothing after it, yields the segment before the identifier.  An
    extracted identifier never contains a "/". *)
Theorem identifier_is_between_last_two_slashes (p a b : string) :
  char_free "/" a -> char_free "/" b ->
  getitem (split "/" (p +:+ "/" +:+ a +:+ "/" +:+ b)) (-2) = Return a
  /\ (forall url id, getitem (split "/" url) (-2) = Return id ->
        char_free "/" id).
Proof.
  intros Ha Hb. split.
  - change (p +:+ "/" +:+ a +:+ "/" +:+ b)
      with (p +:+ String "/" (a +:+ String "/" b)).
    rewrite !split_app, (split_char_free "/" a Ha), (split_char_free "/" b Hb).
    rewrite getitem_minus_2.
    change ([a] ++ [b]) with [a; b].
    rewrite second_to_last_app. reflexivity.
  - intros url id Hid. rewrite getitem_minus_2 in Hid.
    destruct (second_to_last (split "/" url)) as [x|] eqn:E; [|discriminate].
    injection Hid as ->.
    apply second_to_last_Some in E as (pre & last & Hsplit).
    pose proof (split_segments_char_free "/" url) as Hall.
    rewrite Hsplit in Hall. apply Forall_app in Hall as [_ Hall].
    inversion Hall; assumption.
Qed.

Lemma identifier_is_between_last_two_slashes_witness :
  getitem (split "/" "https://drive.google.com/file/d/CSV1/view") (-2)
  = Return "CSV1"
  /\ getitem (split "/" "https://drive.google.com/file/d/CSV1") (-2)
     = Return "d".
Proof.
  split.
  - exact (proj1 (identifier_is_between_last_two_slashes
                    "https://drive.google.com/file/d" "CSV1" "view"
                    eq_refl eq_refl)).
  - exact (proj1 (identifier_is_between_last_two_slashes
                    "https://drive.google.com/file" "d" "CSV1"
                    eq_refl eq_refl)).
Defined.

(** *** Failures of the retrieval *)

(** Follow a retrieval call under a hypothesis [H] that says how the whole
    retrieval ends. *)
Ltac run_call_in H :=
  run_lift;
  match goal with
  | |- context [match ?r with Return _ => _ | Raise _ => _ end] =>
      let x := fresh "x" in
      let e := fresh "e" in
      destruct r as [x|e]; simpl in H |- *;
      [|try (injection H as ->; reflexivity); try discriminate H]
  end.

Lemma call_retrieve_Raise
    (W : World) (P : Parsers) (r : reader W) (e : exn)
    (file_format : string) (kw : kwargs) (h : store) :
  retrieve W r = Raise e ->
  call W P r file_format kw h = (Raise e, h).
Proof.
  intros H.
  destruct r as [url | url auth | name bkt prj cred]; simpl in *.
  - unfold read_public_file_from_gdrive.
    do 2 run_call_in H. discriminate H.
  - unfold read_private_file_from_gdrive. cbv zeta.
    do 2 run_call_in H. discriminate H.
  - unfold read_file_from_gcloud_storage.
    do 4 run_call_in H.
    match goal with b : option (Blob W) |- _ => destruct b end;
      simpl in H |- *.
    + run_call_in H. discriminate H.
    + run_lift. injection H as ->. reflexivity.
Qed.

(** X5.  When the retrieval fails, the call fails with the very same
    exception, for every format tag, supported or not, and every option;
    it allocates no stream, and a second call fails in the same way. *)
Theorem retrieval_failure_propagates
    (W : World) (P : Parsers) (r : reader W) (e : exn)
    (file_format : string) (kw : kwargs) (h : store) :
  retrieve W r = Raise e ->
  call W P r file_format kw h = (Raise e, h)
  /\ call W P r file_format kw (snd (call W P r file_format kw h))
     = (Raise e, h).
Proof.
  intros H.
  pose proof (call_retrieve_Raise W P r e file_format kw h H) as Hcall.
  split; [exact Hcall|]. rewrite Hcall. exact Hcall.
Qed.

Lemma retrieval_failure_propagates_witness :
  read_public_file_from_gdrive Sample.world Sample.parsers
    (Sample.drive_url "MISSING") "yaml" ∅ []
  = (Raise (ServiceError "not found"), []).
Proof.
  exact (proj1 (retrieval_failure_propagates Sample.world Sample.parsers
                  (PublicGdrive Sample.world (Sample.drive_url "MISSING"))
                  (ServiceError "not found") "yaml" ∅ [] eq_refl)).
Defined.

(** X4.  When the bucket has no object of the given name, [get_blob]
    returns [None] and [read_file_from_gcloud_storage] raises
    [AttributeError] on the download, for every format tag: also a tag
    without a branch raises here, it does not return [None]. *)
Theorem gcloud_storage_missing_object_raises
    (W : World) (P : Parsers)
    (file_name gcp_bucket gcp_project gcp_credentials_file : string)
    (credentials : Credentials W) (storage_client : storage_Client W)
    (bucket : Bucket W) (file_format : string) (kw : kwargs) (h : store) :
  from_service_account_file W gcp_credentials_file = Return credentials ->
  Client W gcp_project credentials = Return storage_client ->
  get_bucket W storage_client gcp_bucket = Return bucket ->
  get_blob W bucket file_name = Return None ->
  read_file_from_gcloud_storage W P file_name file_format gcp_bucket
    gcp_project gcp_credentials_file kw h = (Raise AttributeError, h).
Proof.
  intros Hcred Hclient Hbucket Hblob.
  apply (call_retrieve_Raise W P
           (GcloudStorage W file_name gcp_bucket gcp_project
              gcp_credentials_file)).
  simpl. rewrite Hcred. simpl. rewrite Hclient. simpl.
  rewrite Hbucket. simpl. rewrite Hblob. reflexivity.
Qed.

Lemma gcloud_storage_missing_object_raises_witness :
  read_file_from_gcloud_storage Sample.world Sample.parsers "MISSING" "yaml"
    "bucket" "project" "key.json" ∅ [] = (Raise AttributeError, []).
Proof.
  exact (gcloud_storage_missing_object_raises Sample.world Sample.parsers
           "MISSING" "bucket" "project" "key.json" () () () "yaml" ∅ []
           eq_refl eq_refl eq_refl eq_refl).
Defined.

(** *** What a result tells *)

Lemma fmap_result_not_None {A} (f : A -> pyval) (m : result A) :
  (forall a, f a <> PNone) -> f <$> m <> Return PNone.
Proof.
  intros Hf. destruct m as [a|e]; simpl; [|discriminate].
  intros [= H]. exact (Hf a H).
Qed.

Lemma not_supported_of_eqb (file_format : string) (l : list string) :
  forallb (fun x => negb (file_format =? x)) l = true -> file_format ∉ l.
Proof.
  induction l as [|x l IH]; simpl.
  - intros _. apply not_elem_of_nil.
  - intros H. apply andb_true_iff in H as [Hx Hl].
    apply not_elem_of_cons. split; [|exact (IH Hl)].
    apply String.eqb_neq. destruct (file_format =? x); [discriminate|reflexivity].
Qed.

(** X6.  A call returns [None] only for a format tag without a branch, or
    for tag "json" (where [None] is the document [null]): the branches that
    build a frame or a string never return [None]. *)
Theorem None_only_from_unsupported_or_json
    (W : World) (P : Parsers) (r : reader W) (file_format : string)
    (kw : kwargs) (h : store) :
  fst (call W P r file_format kw h) = Return PNone ->
  file_format ∉ supported W r \/ file_format = "json".
Proof.
  rewrite call_decode_step.
  destruct (retrieve W r) as [payload|e]; simpl; [|discriminate].
  assert (HF : forall m : result DataFrame, PFrame <$> m <> Return PNone)
    by (intros m; apply fmap_result_not_None; discriminate).
  assert (HS : forall m : result string, PStr <$> m <> Return PNone)
    by (intros m; apply fmap_result_not_None; discriminate).
  destruct r as [url | url auth | name bkt prj cred]; simpl.
  - destruct (file_format =? "csv") eqn:E1; [intros H; destruct (HF _ H)|].
    destruct (file_format =? "xlsx") eqn:E2; [intros H; destruct (HF _ H)|].
    destruct (file_format =? "json") eqn:E3;
      [intros _; right; apply String.eqb_eq; exact E3|].
    intros _. left. apply not_supported_of_eqb. simpl.
    rewrite E1, E2, E3. reflexivity.
  - destruct (file_format =? "csv") eqn:E1.
    { destruct payload as [t|b]; simpl; [discriminate|].
      destruct (decode _ _ _); simpl; [|discriminate].
      intros H; destruct (HF _ H). }
    destruct (file_format =? "xlsx") eqn:E2; [intros H; destruct (HF _ H)|].
    destruct (file_format =? "parquet") eqn:E3.
    { destruct payload; [discriminate|]. intros H; destruct (HF _ H). }
    destruct (file_format =? "json") eqn:E4;
      [intros _; right; apply String.eqb_eq; exact E4|].
    destruct (file_format =? "txt") eqn:E5; [intros H; destruct (HS _ H)|].
    intros _. left. apply not_supported_of_eqb. simpl.
    rewrite E1, E2, E3, E4, E5. reflexivity.
  - destruct payload as [t|b]; [discriminate|].
    destruct (file_format =? "csv") eqn:E1; [intros H; destruct (HF _ H)|].
    destruct (file_format =? "parquet") eqn:E2; [intros H; destruct (HF _ H)|].
    destruct (file_format =? "json") eqn:E3;
      [intros _; right; apply String.eqb_eq; exact E3|].
    destruct (file_format =? "txt") eqn:E4; [intros H; destruct (HS _ H)|].
    intros _. left. apply not_supported_of_eqb. simpl.
    rewrite E1, E2, E3, E4. reflexivity.
Qed.

Lemma None_only_from_unsupported_or_json_witness :
  "yaml" ∉ supported Sample.world
             (PublicGdrive Sample.world (Sample.drive_url "CSV1"))
  \/ "yaml" = "json".
Proof.
  exact (None_only_from_unsupported_or_json Sample.world Sample.parsers
           (PublicGdrive Sample.world (Sample.drive_url "CSV1")) "yaml" ∅ []
           eq_refl).
Defined.

(** *** Options and payloads *)

(** X7.  The Drive functions do not forward the caller's options to the
    JSON parser: with format tag "json" the result is the same whatever the
    options are. *)
Theorem drive_json_ignores_options (W : World) (P : Parsers) :
  (forall file_url kw kw' h h',
     fst (read_public_file_from_gdrive W P file_url "json" kw h)
     = fst (read_public_file_from_gdrive W P file_url "json" kw' h'))
  /\ (forall file_url google_auth kw kw' h h',
        fst (read_private_file_from_gdrive W P file_url "json" google_auth kw h)
        = fst (read_private_file_from_gdrive W P file_url "json" google_auth
                 kw' h')).
Proof.
  split.
  - intros file_url kw kw' h h'.
    change (read_public_file_from_gdrive W P file_url "json" kw h)
      with (call W P (PublicGdrive W file_url) "json" kw h).
    change (read_public_file_from_gdrive W P file_url "json" kw' h')
      with (call W P (PublicGdrive W file_url) "json" kw' h').
    rewrite !call_decode_step. reflexivity.
  - intros file_url google_auth kw kw' h h'.
    change (read_private_file_from_gdrive W P file_url "json" google_auth kw h)
      with (call W P (PrivateGdrive W file_url google_auth) "json" kw h).
    change (read_private_file_from_gdrive W P file_url "json" google_auth kw' h')
      with (call W P (PrivateGdrive W file_url google_auth) "json" kw' h').
    rewrite !call_decode_step. reflexivity.
Qed.

(** X8.  On the same bytes and with the same options,
    [read_private_file_from_gdrive] and [read_file_from_gcloud_storage]
    return the same for the format tags "parquet" and "txt". *)
Theorem private_and_storage_agree
    (W : World) (P : Parsers) (file_url : string) (google_auth : GoogleAuth W)
    (file_name gcp_bucket gcp_project gcp_credentials_file : string)
    (b : bytes) (file_format : string) (kw : kwargs) (h h' : store) :
  retrieve W (PrivateGdrive W file_url google_auth) = Return (Binary b) ->
  retrieve W (GcloudStorage W file_name gcp_bucket gcp_project
                gcp_credentials_file) = Return (Binary b) ->
  file_format = "parquet" \/ file_format = "txt" ->
  fst (read_private_file_from_gdrive W P file_url file_format google_auth kw h)
  = fst (read_file_from_gcloud_storage W P file_name file_format gcp_bucket
           gcp_project gcp_credentials_file kw h').
Proof.
  intros Hprivate Hstorage Hformat.
  change (read_private_file_from_gdrive W P file_url file_format google_auth kw h)
    with (call W P (PrivateGdrive W file_url google_auth) file_format kw h).
  change (read_file_from_gcloud_storage W P file_name file_format gcp_bucket
            gcp_project gcp_credentials_file kw h')
    with (call W P (GcloudStorage W file_name gcp_bucket gcp_project
                      gcp_credentials_file) file_format kw h').
  rewrite !call_decode_step, Hprivate, Hstorage.
  destruct Hformat as [-> | ->]; reflexivity.
Qed.

Lemma private_and_storage_agree_witness :
  fst (read_private_file_from_gdrive Sample.world Sample.parsers
         (Sample.drive_url "TXT1") "txt" () ∅ [])
  = fst (read_file_from_gcloud_storage Sample.world Sample.parsers "TXT1"
           "txt" "bucket" "project" "key.json" ∅ []).
Proof.
  exact (private_and_storage_agree Sample.world Sample.parsers
           (Sample.drive_url "TXT1") () "TXT1" "bucket" "project" "key.json"
           (bytes_of_string "hello") "txt" ∅ [] []
           eq_refl eq_refl (or_intror eq_refl)).
Defined.

(** *** The error policy of text payloads *)

Section Policies.
Context (lookup : string -> option error_handler).


(** A malformed sequence is not empty and lies within the input. *)
Lemma utf8_scan_Invalid (b : bytes) (n : nat) :
  utf8_scan (Byte.to_N <$> take 4 b) = Invalid n ->
  (1 <= n <= length b)%nat.
Proof.
  destruct b as [|c0 [|c1 [|c2 [|c3 t]]]];
    cbn [take fmap list_fmap utf8_scan length];
    repeat match goal with
           | |- context [if ?c then _ else _] => destruct c
           end;
    intros H; inversion H; lia.
Qed.

(** A policy whose handler always answers, and skips the malformed
    sequence, never fails. *)
Lemma utf8_decode_loop_total (fuel : nat) (errors : string)
    (handler : error_handler) (b : bytes) :
  lookup errors = Some handler ->
  (forall rest n, exists s, handler rest n = Return (s, Pos.of_nat n)) ->
  exists s, utf8_decode_loop lookup fuel errors b = Return s.
Proof.
  intros Hlookup Htotal. revert b.
  induction fuel as [|fuel IH]; intros b; [exists ""; reflexivity|].
  cbn [utf8_decode_loop]. destruct b as [|c t]; [exists ""; reflexivity|].
  destruct (utf8_scan _) as [n|n] eqn:Hscan.
  - destruct (IH (drop n (c :: t))) as [rest ->]. simpl. eauto.
  - rewrite Hlookup. destruct (Htotal (c :: t) n) as [r ->]. simpl.
    apply utf8_scan_Invalid in Hscan.
    rewrite Nat2Pos.id by lia.
    destruct (IH (drop n (c :: t))) as [rest ->]. simpl in *.
    destruct (n <=? S (length t))%nat eqn:E; [eauto|].
    apply Nat.leb_gt in E. lia.
Qed.

(** Any keyword but [errors] is rejected, and so is an [errors] that is
    not a string. *)
Lemma decode_bad_keyword (b : bytes) (kw : kwargs) :
  (exists k, k <> "errors" /\ is_Some (kw !! k))
  \/ (exists v, kw !! "errors" = Some v /\ forall s, v <> PStr s) ->
  decode lookup b kw = Raise TypeError.
Proof.
  intros Hbad. unfold decode. case_bool_decide as Hdom; [|reflexivity].
  destruct Hbad as [(k & Hk & Hsome) | (v & Hv & Hstr)].
  - exfalso. apply elem_of_dom in Hsome. apply Hdom in Hsome.
    apply elem_of_singleton in Hsome. contradiction.
  - rewrite Hv. destruct v; try reflexivity.
    exfalso. exact (Hstr _ eq_refl).
Qed.
End Policies.

Section TextBranch.
Context (W : World) (P : Parsers) (r : reader W) (b : bytes).
Hypothesis Htxt : "txt" ∈ supported W r.
Hypothesis Hpayload : retrieve W r = Return (Binary b).

Lemma call_txt (kw : kwargs) (h : store) :
  fst (call W P r "txt" kw h) = PStr <$> decode (lookup_error P) b kw.
Proof.
  rewrite call_decode_step, Hpayload.
  destruct r as [url | url auth | name bkt prj cred]; simpl in *.
  - exfalso. apply (bool_decide_pack _) in Htxt. vm_compute in Htxt.
    exact Htxt.
  - reflexivity.
  - reflexivity.
Qed.


(** X10.  Under the policies "ignore" and "replace" the call with tag
    "txt" returns a string for every payload: decoding cannot fail. *)
Theorem txt_ignore_replace_never_raise (errors : string) (h : store) :
  errors = "ignore" \/ errors = "replace" ->
  lookup_error P errors = builtin_error_handler errors ->
  exists s, fst (call W P r "txt" {["errors" := PStr errors]} h)
            = Return (PStr s).
Proof.
  intros Hpolicy Hlookup. rewrite call_txt.
  destruct Hpolicy as [-> | ->].
  - rewrite decode_errors by reflexivity. unfold utf8_decode.
    destruct (utf8_decode_loop_total (lookup_error P) (length b) "ignore"
                ignore_errors b Hlookup) as [s ->];
      [intros rest n; eexists; reflexivity|]. exists s. reflexivity.
  - rewrite decode_errors by reflexivity. unfold utf8_decode.
    destruct (utf8_decode_loop_total (lookup_error P) (length b) "replace"
                replace_errors b Hlookup) as [s ->];
      [intros rest n; eexists; reflexivity|]. exists s. reflexivity.
Qed.

(** X11.  With tag "txt" the only option accepted is [errors], and it has
    to be a string: any other keyword, or an [errors] of another type,
    makes the call raise [TypeError], whatever the payload. *)
Theorem txt_rejects_other_options (kw : kwargs) (h : store) :
  (exists k, k <> "errors" /\ is_Some (kw !! k))
  \/ (exists v, kw !! "errors" = Some v /\ forall s, v <> PStr s) ->
  fst (call W P r "txt" kw h) = Raise TypeError.
Proof.
  intros Hbad. rewrite call_txt, (decode_bad_keyword _ _ _ Hbad). reflexivity.
Qed.
End TextBranch.


Lemma txt_ignore_replace_never_raise_witness :
  let malformed : bytes := [x63; x61; x66; xe9; x20; xff; xfe]%byte in
  let drive := with_drive_content Sample.world malformed in
  fst (read_private_file_from_gdrive drive Sample.parsers
         (Sample.drive_url "TXT1") "txt" () ∅ []) = Raise UnicodeDecodeError
  /\ (exists s,
        fst (read_private_file_from_gdrive drive Sample.parsers
               (Sample.drive_url "TXT1") "txt" ()
               {["errors" := PStr "replace"]} []) = Return (PStr s))
  /\ (exists s,
        fst (read_private_file_from_gdrive drive Sample.parsers
               (Sample.drive_url "TXT1") "txt" ()
               {["errors" := PStr "ignore"]} []) = Return (PStr s)).
Proof.
  intros malformed drive.
  assert (Htxt : "txt" ∈ supported drive
            (PrivateGdrive drive (Sample.drive_url "TXT1") ()))
    by (apply (bool_decide_unpack _); vm_compute; exact I).
  split; [vm_compute; reflexivity|]. split.
  - exact (txt_ignore_replace_never_raise drive Sample.parsers
             (PrivateGdrive drive (Sample.drive_url "TXT1") ())
             malformed Htxt eq_refl "replace" [] (or_intror eq_refl) eq_refl).
  - exact (txt_ignore_replace_never_raise drive Sample.parsers
             (PrivateGdrive drive (Sample.drive_url "TXT1") ())
             malformed Htxt eq_refl "ignore" [] (or_introl eq_refl) eq_refl).
Defined.

Lemma txt_rejects_other_options_witness :
  fst (read_file_from_gcloud_storage Sample.world Sample.parsers "TXT1" "txt"
         "bucket" "project" "key.json" {["sep" := PStr ";"]} [])
  = Raise TypeError.
Proof.
  refine (txt_rejects_other_options Sample.world Sample.parsers
            (GcloudStorage Sample.world "TXT1" "bucket" "project" "key.json")
            (bytes_of_string "hello") _ eq_refl {["sep" := PStr ";"]} [] _).
  - apply (bool_decide_unpack _). vm_compute. exact I.
  - left. exists "sep". split; [discriminate|]. eexists. reflexivity.
Defined.

(** *** What is fetched *)



(** X13.  [read_public_sheets] is the "csv" branch of
    [read_file_from_gcloud_storage] without options, on the bytes of the
    response: when the web answers the given URL with the bytes that the
    bucket holds, the two calls return the same.  It fetches the URL as it
    is given and nothing else: any web with the same answer at that URL
    gives the same result and the same streams. *)
Theorem read_public_sheets_agrees_with_storage_csv
    (W : World) (P : Parsers) (file_url : string) (resp : response)
    (h : store) :
  requests_get W file_url = Return resp ->
  (forall file_name gcp_bucket gcp_project gcp_credentials_file h',
     retrieve W (GcloudStorage W file_name gcp_bucket gcp_project
                   gcp_credentials_file)
     = Return (Binary (content resp)) ->
     fst (read_public_sheets W P file_url h)
     = fst (read_file_from_gcloud_storage W P file_name "csv" gcp_bucket
              gcp_project gcp_credentials_file ∅ h'))
  /\ (forall get : string -> result response,
        get file_url = Return resp ->
        read_public_sheets (with_requests_get W get) P file_url h
        = read_public_sheets W P file_url h).
Proof.
  intros Hget.
  assert (Hsheets : forall W', requests_get W' file_url = Return resp ->
    read_public_sheets W' P file_url h
    = (PFrame <$> read_csv P (Binary (content resp)) ∅,
       h ++ [mkStream (Binary (content resp))
               (data_length (Binary (content resp)))])).
  { intros W' Hget'. unfold read_public_sheets.
    run_lift. rewrite Hget'. run_stream.
    rewrite fmap_M, pd_read_csv_last. reflexivity. }
  split.
  - intros file_name gcp_bucket gcp_project gcp_credentials_file h' Hpayload.
    rewrite (Hsheets W Hget).
    change (read_file_from_gcloud_storage W P file_name "csv" gcp_bucket
              gcp_project gcp_credentials_file ∅ h')
      with (call W P (GcloudStorage W file_name gcp_bucket gcp_project
                        gcp_credentials_file) "csv" ∅ h').
    rewrite call_decode_step, Hpayload. reflexivity.
  - intros get Hsame.
    rewrite (Hsheets W Hget), (Hsheets (with_requests_get W get) Hsame).
    reflexivity.
Qed.

Lemma read_public_sheets_agrees_with_storage_csv_witness :
  fst (read_public_sheets Sample.world Sample.parsers
         "https://drive.google.com/uc?export=download&id=CSV1" [])
  = fst (read_file_from_gcloud_storage Sample.world Sample.parsers "CSV1"
           "csv" "bucket" "project" "key.json" ∅ []).
Proof.
  exact (proj1 (read_public_sheets_agrees_with_storage_csv Sample.world
                  Sample.parsers
                  "https://drive.google.com/uc?export=download&id=CSV1"
                  (mkResponse (bytes_of_string Sample.csv_text)
                     (string_of_bytes (bytes_of_string Sample.csv_text)))
                  [] eq_refl)
           "CSV1" "bucket" "project" "key.json" [] eq_refl).
Defined.

(** *** The streams of a call *)

Ltac frame_done :=
  simpl;
  first [ exists []; split; [rewrite app_nil_r; reflexivity | simpl; lia]
        | eexists; split; [rewrite <- ?app_assoc; reflexivity | simpl; lia] ].

(** X14.  A call leaves every stream that existed before it as it was: the
    store after the call is the store before it, followed by the at most
    two streams the call has allocated for itself. *)
Theorem call_preserves_existing_streams
    (W : World) (P : Parsers) (r : reader W) (file_format : string)
    (kw : kwargs) (h : store) :
  exists allocated : store,
    snd (call W P r file_format kw h) = h ++ allocated
    /\ (length allocated <= 2)%nat.
Proof.
  destruct r as [url | url auth | name bkt prj cred]; simpl.
  - unfold read_public_file_from_gdrive.
    run_lift. destruct (getitem _ _) as [id|e]; [|frame_done]. simpl.
    run_lift. destruct (requests_get W _) as [resp|e]; [|frame_done]. simpl.
    run_stream.
    repeat match goal with
           | |- context [if ?c then _ else _] => destruct c
           end;
      rewrite ?fmap_M, ?pd_read_csv_last, ?pd_read_excel_last,
        ?json_dot_load_last; frame_done.
  - unfold read_private_file_from_gdrive. cbv zeta.
    run_lift. destruct (getitem _ _) as [id|e]; [|frame_done]. simpl.
    run_lift. destruct (GetContentIOBuffer W _) as [b|e]; [|frame_done]. simpl.
    run_stream.
    repeat match goal with
           | |- context [if ?c then _ else _] => destruct c
           end.
    all: try run_stream.
    all: unfold bytes_decode.
    all: try (run_lift; destruct (decode _ _ _) as [s|e]; [|frame_done]; simpl).
    all: try run_stream.
    all: rewrite ?fmap_M, ?pd_read_csv_last, ?pd_read_excel_direct,
           ?pd_read_parquet_last, ?json_dot_load_last.
    all: frame_done.
  - unfold read_file_from_gcloud_storage.
    run_lift. destruct (from_service_account_file W _) as [c|e]; [|frame_done].
    simpl.
    run_lift. destruct (Client W _ _) as [sc|e]; [|frame_done]. simpl.
    run_lift. destruct (get_bucket W _ _) as [bk|e]; [|frame_done]. simpl.
    run_lift. destruct (get_blob W _ _) as [[bl|]|e]; [| |frame_done]; simpl.
    + run_lift. destruct (download_as_string W _) as [b|e]; [|frame_done].
      simpl.
      repeat match goal with
             | |- context [if ?c then _ else _] => destruct c
             end.
      all: try run_stream.
      all: rewrite ?fmap_M, ?pd_read_csv_last, ?pd_read_parquet_last.
      all: frame_done.
    + try run_lift. frame_done.
Qed.

(** *** Payloads that are not UTF-8 *)

(** X15.  [read_private_file_from_gdrive] decodes a "csv" or "json"
    payload as strict UTF-8 before it parses it, and the caller's options
    have no part in that: when the payload does not decode, the call raises
    the decoding error under every option, and the parser is not asked. *)
Theorem private_csv_json_need_utf8
    (W : World) (P : Parsers) (file_url : string) (google_auth : GoogleAuth W)
    (b : bytes) (e : exn) (file_format : string) (kw : kwargs) (h : store) :
  retrieve W (PrivateGdrive W file_url google_auth) = Return (Binary b) ->
  utf8_decode (lookup_error P) "strict" b = Raise e ->
  file_format = "csv" \/ file_format = "json" ->
  fst (read_private_file_from_gdrive W P file_url file_format google_auth kw h)
  = Raise e.
Proof.
  intros Hpayload Hdecode Hformat.
  change (read_private_file_from_gdrive W P file_url file_format google_auth kw h)
    with (call W P (PrivateGdrive W file_url google_auth) file_format kw h).
  rewrite call_decode_step, Hpayload.
  destruct Hformat as [-> | ->]; simpl;
    rewrite decode_no_kwargs, Hdecode; reflexivity.
Qed.

Lemma private_csv_json_need_utf8_witness :
  let latin1 : bytes := [x63; x61; x66; xe9]%byte in
  fst (read_private_file_from_gdrive
         (with_drive_content Sample.world latin1) Sample.parsers
         (Sample.drive_url "CSV1") "csv" ()
         {["encoding" := PStr "latin-1"]} [])
  = Raise UnicodeDecodeError.
Proof.
  intros latin1.
  exact (private_csv_json_need_utf8 (with_drive_content Sample.world latin1)
           Sample.parsers (Sample.drive_url "CSV1") () latin1
           UnicodeDecodeError "csv" {["encoding" := PStr "latin-1"]} []
           eq_refl eq_refl (or_introl eq_refl)).
Defined.
